(** * Omtobe MVP: the mock API client and the demo trigger, embedded in Rocq

    Source files modelled here:
    - [frontend/src/api/mock-client.ts]  (class [OmtobeMockClient])
    - [frontend/src/App.tsx]             (auto-trigger effect, [handleBrakeDecision])
    - the demo context                   ([setHRV], [setCalendarEvent], [setDay])

    Modelling conventions.
    - A JavaScript [Date] is its time value, an integer number of milliseconds
      ([Z]).  [toISOString] and [new Date(isoString)] are inverse renderings of
      that integer, so an ISO timestamp is carried as the same [Z].
    - The timestamps handled are integers of the [Date] range, for which the
      double-precision subtraction, division by 86400000 and [Math.floor] agree
      with exact integer arithmetic: [Math.floor (a / b)] is [Z.div] (floor) and
      the JavaScript [%] is [Z.rem] (truncated, sign of the dividend).
    - Every [new Date()], [Date.now()] and [Math.random()] is an effect: the
      runtime hands out the next reading of a clock oracle, respectively the
      next draw of a random oracle.  Nothing is assumed about the oracles.
    - [localStorage] holds, under each of the four keys the client uses, what
      the client itself writes there. *)

From Stdlib Require Import ZArith QArith List String Bool Lia.
From Stdlib Require Import Sorted.
From ExtLib Require Import Structures.Monad Structures.MonadState.
From ExtLib Require Import Data.Monads.StateMonad.
Import ListNotations.
Import MonadNotation.
Local Open Scope monad_scope.
Local Open Scope Z_scope.

Set Implicit Arguments.

(** ** The JavaScript runtime the client runs in *)

Module Js.

(** Values found in the object literals that the client serialises. *)
Inductive JsValue :=
| JString (s : string)
| JIsoTime (ms : Z).

(** An object literal: its fields in insertion order. *)
Definition JsObject := list (string * JsValue).

Definition field_names (o : JsObject) : list string := map fst o.

Fixpoint get_field (o : JsObject) (k : string) : option JsValue :=
  match o with
  | [] => None
  | (k', v) :: o' => if String.eqb k' k then Some v else get_field o' k
  end.

(** [localStorage], restricted to the keys of the mock client. *)
Record LocalStorage := mkLocalStorage {
  omtobe_user_id : option string;
  omtobe_cycle_start : option Z;
  omtobe_decisions : option (list JsObject);
  omtobe_reflections : option (list JsObject)
}.

Definition emptyStorage : LocalStorage := mkLocalStorage None None None None.

Definition set_user_id (v : string) (ls : LocalStorage) : LocalStorage :=
  mkLocalStorage (Some v) (omtobe_cycle_start ls)
                 (omtobe_decisions ls) (omtobe_reflections ls).

Definition set_cycle_start (v : Z) (ls : LocalStorage) : LocalStorage :=
  mkLocalStorage (omtobe_user_id ls) (Some v)
                 (omtobe_decisions ls) (omtobe_reflections ls).

Definition set_decisions (v : list JsObject) (ls : LocalStorage) : LocalStorage :=
  mkLocalStorage (omtobe_user_id ls) (omtobe_cycle_start ls)
                 (Some v) (omtobe_reflections ls).

Definition set_reflections (v : list JsObject) (ls : LocalStorage) : LocalStorage :=
  mkLocalStorage (omtobe_user_id ls) (omtobe_cycle_start ls)
                 (omtobe_decisions ls) (Some v).

(** [JSON.parse(localStorage.getItem(key) || '[]')] *)
Definition parse_or_empty (v : option (list JsObject)) : list JsObject :=
  match v with
  | Some a => a
  | None => []
  end.

(** The double-precision literal [0.3]: 5404319552844595 * 2^-54. *)
Definition double_0_3 : Q := 5404319552844595 # 18014398509481984.

Definition Qltb (x y : Q) : bool :=
  (Qnum x * Zpos (Qden y) <? Qnum y * Zpos (Qden x))%Z.

End Js.

(** ** The mock client *)

Module MockClient.
Import Js.

(** Private fields of [class OmtobeMockClient]. *)
Record OmtobeMockClient := mkClient {
  userId : option string;
  cycleStartDate : Z;
  lastBrakeTime : Z;
  coolingPeriodActive : bool
}.

(** Everything a method can read or change. *)
Record World := mkWorld {
  clock : nat -> Z;
  clock_reads : nat;
  random : nat -> Q;
  random_draws : nat;
  localStorage : LocalStorage;
  this : OmtobeMockClient
}.

Definition JS := state World.

(** [new Date()] and [Date.now()]: the next reading of the clock. *)
Definition Date_now : JS Z :=
  w <- get ;;
  put (mkWorld (clock w) (S (clock_reads w)) (random w) (random_draws w)
               (localStorage w) (this w)) ;;
  ret (clock w (clock_reads w)).

Definition new_Date : JS Z := Date_now.

(** [Math.random()]: the next draw. *)
Definition Math_random : JS Q :=
  w <- get ;;
  put (mkWorld (clock w) (clock_reads w) (random w) (S (random_draws w))
               (localStorage w) (this w)) ;;
  ret (random w (random_draws w)).

Definition storage_update (f : LocalStorage -> LocalStorage) : JS unit :=
  w <- get ;;
  put (mkWorld (clock w) (clock_reads w) (random w) (random_draws w)
               (f (localStorage w)) (this w)).

Definition this_update (f : OmtobeMockClient -> OmtobeMockClient) : JS unit :=
  w <- get ;;
  put (mkWorld (clock w) (clock_reads w) (random w) (random_draws w)
               (localStorage w) (f (this w))).

Definition with_userId (v : option string) (c : OmtobeMockClient) :=
  mkClient v (cycleStartDate c) (lastBrakeTime c) (coolingPeriodActive c).

Definition with_cycleStartDate (v : Z) (c : OmtobeMockClient) :=
  mkClient (userId c) v (lastBrakeTime c) (coolingPeriodActive c).

Definition with_lastBrakeTime (v : Z) (c : OmtobeMockClient) :=
  mkClient (userId c) (cycleStartDate c) v (coolingPeriodActive c).

(** *** Day and phase *)

Definition MS_PER_DAY : Z := 1000 * 60 * 60 * 24.

(** The arithmetic of [getCurrentDay], on the two time values. *)
Definition dayOfCycle (cycleStart now : Z) : Z :=
  let daysDiff := (now - cycleStart) / MS_PER_DAY in
  Z.rem daysDiff 7 + 1.

Definition getCurrentDay : JS Z :=
  now <- new_Date ;;
  start <- gets (fun w => cycleStartDate (this w)) ;;
  ret (dayOfCycle start now).

Definition phaseOfDay (day : Z) : string :=
  if day <=? 2 then "TOTAL_SILENCE"%string
  else if day <=? 5 then "INTERVENTION_LOGIC"%string
  else "REFLECTION"%string.

Definition getCurrentPhase : JS string :=
  day <- getCurrentDay ;;
  ret (phaseOfDay day).


(** *** Response shapes (the TypeScript interfaces) *)

Module StateCheckResponse.
Record t := mk {
  should_display : bool;
  event_id : option string;
  current_day : Z;
  phase : string;
  hrv_current : option Q;
  hrv_baseline_mean : option Q;
  timestamp : Z
}.
End StateCheckResponse.

Module DecisionResponse.
Record t := mk {
  status : string;
  decision_type : string;
  timestamp : Z;
  next_action : string;
  re_trigger_time : option Z
}.
End DecisionResponse.

Module CycleReset.
Record t := mk {
  status : string;
  new_cycle_start : Z;
  current_day : Z
}.
End CycleReset.

Module ReflectionResponse.
Record t := mk {
  status : string;
  response : string;
  timestamp : Z;
  cycle_reset : CycleReset.t
}.
End ReflectionResponse.

Module StateBody.
Record t := mk {
  user_id : string;
  current_day : Z;
  cycle_start_date : Z;
  cooling_period_active : bool;
  decision_locked : bool;
  hrv_baseline_mean : option Q;
  hrv_baseline_std_dev : option Q;
  phase : string
}.
End StateBody.

Module StateResponse.
Record t := mk {
  user_id : string;
  state : StateBody.t;
  timestamp : Z
}.
End StateResponse.

Module UserCreated.
Record t := mk {
  status : string;
  user_id : string;
  email : string;
  timezone : string;
  timestamp : Z
}.
End UserCreated.

Module History.
Record t := mk {
  entries : list JsObject;
  total : Z
}.
End History.

(** The argument types ['Proceed' | 'Delay'] and ['Yes' | 'No' | 'Skip']. *)
Inductive DecisionType := Proceed | Delay.

Inductive ReflectionAnswer := Yes | No | Skip.

Definition decisionName (d : DecisionType) : string :=
  match d with
  | Proceed => "Proceed"
  | Delay => "Delay"
  end.

Definition answerName (r : ReflectionAnswer) : string :=
  match r with
  | Yes => "Yes"
  | No => "No"
  | Skip => "Skip"
  end.

(** JavaScript truthiness of a string: only the empty string is falsy. *)
Definition truthy (s : string) : bool :=
  match s with
  | EmptyString => false
  | _ => true
  end.

(** *** Construction *)

(** Field initialisers; [cycleStartDate] is assigned by the constructor. *)
Definition field_initialisers : OmtobeMockClient := mkClient None 0 0 false.

Definition constructor : JS unit :=
  stored <- gets (fun w => omtobe_user_id (localStorage w)) ;;
  match stored with
  | Some s => if truthy s then this_update (with_userId (Some s)) else ret tt
  | None => ret tt
  end ;;
  storedCycleStart <- gets (fun w => omtobe_cycle_start (localStorage w)) ;;
  start <- match storedCycleStart with
           | Some t => ret t
           | None => new_Date
           end ;;
  this_update (with_cycleStartDate start).

Definition setUserId (uid : string) : JS unit :=
  this_update (with_userId (Some uid)) ;;
  storage_update (set_user_id uid) ;;
  t <- new_Date ;;
  storage_update (set_cycle_start t) ;;
  t' <- new_Date ;;
  this_update (with_cycleStartDate t').

Definition getUserId : JS (option string) :=
  gets (fun w => userId (this w)).

Definition healthCheck : JS (string * string) :=
  ret ("healthy"%string, "0.1.0"%string).

Definition createUser (uid email timezone : string) : JS UserCreated.t :=
  setUserId uid ;;
  ts <- new_Date ;;
  ret (UserCreated.mk "user_created" uid email timezone ts).

(** *** The trigger check *)

Definition checkBrakeScreen : JS StateCheckResponse.t :=
  day <- getCurrentDay ;;
  phase <- getCurrentPhase ;;
  (* phase === 'INTERVENTION_LOGIC' && Math.random() < 0.3 *)
  shouldDisplay <- (if String.eqb phase "INTERVENTION_LOGIC"
                    then r <- Math_random ;; ret (Qltb r double_0_3)
                    else ret false) ;;
  (if shouldDisplay : bool
   then t <- Date_now ;; this_update (with_lastBrakeTime t)
   else ret tt) ;;
  h <- Math_random ;;
  ts <- new_Date ;;
  ret (StateCheckResponse.mk
         shouldDisplay
         (if shouldDisplay then Some "mock_event_001"%string else None)
         day
         phase
         (Some (45 + h * 15)%Q)
         (Some 60%Q)
         ts).

(** *** Decisions and reflections *)

Definition COOLING_MS : Z := 20 * 60 * 1000.

Definition recordDecision (decisionType : DecisionType) : JS DecisionResponse.t :=
  ts <- new_Date ;;
  re <- match decisionType with
        | Delay => t <- Date_now ;; ret (Some (t + COOLING_MS))
        | Proceed => ret None
        end ;;
  let decision :=
    DecisionResponse.mk
      "decision_recorded"
      (decisionName decisionType)
      ts
      (match decisionType with
       | Delay => "wait_20_mins"
       | Proceed => "proceed_with_decision"
       end)
      re in
  decisions <- gets (fun w => parse_or_empty (omtobe_decisions (localStorage w))) ;;
  storage_update
    (set_decisions
       (decisions ++
        [[("timestamp"%string, JIsoTime (DecisionResponse.timestamp decision));
          ("decision_type"%string, JString (decisionName decisionType))]])) ;;
  ret decision.

Definition recordReflection (response : ReflectionAnswer) : JS ReflectionResponse.t :=
  ts <- new_Date ;;
  ncs <- new_Date ;;
  let reflection :=
    ReflectionResponse.mk
      "reflection_recorded"
      (answerName response)
      ts
      (CycleReset.mk "cycle_reset_initiated" ncs 1) in
  reflections <- gets (fun w => parse_or_empty (omtobe_reflections (localStorage w))) ;;
  storage_update
    (set_reflections
       (reflections ++
        [[("timestamp"%string, JIsoTime (ReflectionResponse.timestamp reflection));
          ("response"%string, JString (answerName response))]])) ;;
  t <- new_Date ;;
  storage_update (set_cycle_start t) ;;
  t' <- new_Date ;;
  this_update (with_cycleStartDate t') ;;
  ret reflection.

(** *** Reading the state *)

(** [this.userId || 'unknown'] *)
Definition or_unknown (u : option string) : string :=
  match u with
  | Some s => if truthy s then s else "unknown"%string
  | None => "unknown"%string
  end.

Definition getState : JS StateResponse.t :=
  day <- getCurrentDay ;;
  phase <- getCurrentPhase ;;
  c <- gets this ;;
  ts <- new_Date ;;
  ret (StateResponse.mk
         (or_unknown (userId c))
         (StateBody.mk
            (or_unknown (userId c))
            day
            (cycleStartDate c)
            (coolingPeriodActive c)
            false
            (Some 60%Q)
            (Some 5%Q)
            phase)
         ts).

(** [a.slice(-limit)] for an integer [limit]: a negative start counts from
    the end, a non-negative one from the front. *)
Definition slice_from_neg (limit : Z) (a : list JsObject) : list JsObject :=
  let len := Z.of_nat (List.length a) in
  let start := - limit in
  let k := if start <? 0 then Z.max (len + start) 0 else Z.min start len in
  skipn (Z.to_nat k) a.

Definition getDecisionHistory (limit : Z) : JS History.t :=
  decisions <- gets (fun w => parse_or_empty (omtobe_decisions (localStorage w))) ;;
  ret (History.mk (slice_from_neg limit decisions)
                  (Z.of_nat (List.length decisions))).

Definition getReflectionHistory (limit : Z) : JS History.t :=
  reflections <- gets (fun w => parse_or_empty (omtobe_reflections (localStorage w))) ;;
  ret (History.mk (slice_from_neg limit reflections)
                  (Z.of_nat (List.length reflections))).

(** *** Sessions: a client is constructed, then its methods are called *)

Inductive Op :=
| OpSetUserId (uid : string)
| OpGetUserId
| OpHealthCheck
| OpCreateUser (uid email timezone : string)
| OpCheckBrakeScreen
| OpRecordDecision (d : DecisionType)
| OpRecordReflection (r : ReflectionAnswer)
| OpGetState
| OpGetDecisionHistory (limit : Z)
| OpGetReflectionHistory (limit : Z).

Definition perform (o : Op) : JS unit :=
  match o with
  | OpSetUserId uid => setUserId uid
  | OpGetUserId => getUserId ;; ret tt
  | OpHealthCheck => healthCheck ;; ret tt
  | OpCreateUser uid email tz => createUser uid email tz ;; ret tt
  | OpCheckBrakeScreen => checkBrakeScreen ;; ret tt
  | OpRecordDecision d => recordDecision d ;; ret tt
  | OpRecordReflection r => recordReflection r ;; ret tt
  | OpGetState => getState ;; ret tt
  | OpGetDecisionHistory limit => getDecisionHistory limit ;; ret tt
  | OpGetReflectionHistory limit => getReflectionHistory limit ;; ret tt
  end.

Fixpoint perform_all (ops : list Op) : JS unit :=
  match ops with
  | [] => ret tt
  | o :: ops' => perform o ;; perform_all ops'
  end.

(** [new OmtobeMockClient()] in a page whose clock, random source and
    storage are given. *)
Definition new_client (clk : nat -> Z) (rnd : nat -> Q) (ls : LocalStorage) : World :=
  execState constructor (mkWorld clk 0 rnd 0 ls field_initialisers).

Definition session (clk : nat -> Z) (rnd : nat -> Q) (ls : LocalStorage)
                   (ops : list Op) : World :=
  execState (perform_all ops) (new_client clk rnd ls).

(** Worlds that a session can be in. *)
Definition reachable (w : World) : Prop :=
  exists clk rnd ls ops, w = session clk rnd ls ops.

End MockClient.

(** ** The demo simulators and the App's use of the trigger *)

Module Demo.

Inductive HrvStatus := normal | elevated | critical.

Record HRVData := mkHRV {
  current : Z;
  baseline : Z;
  change : Z;          (* percentage *)
  status : HrvStatus
}.

Inductive RiskLevel := high | medium | low.

(** [startTime] and [endTime] are the time values that the source renders
    with [toLocaleTimeString]. *)
Record CalendarEvent := mkEvent {
  id : string;
  title : string;
  startTime : Z;
  endTime : Z;
  riskLevel : RiskLevel
}.

Record InterventionRecord := mkIntervention {
  timestamp : Z;
  decision : MockClient.DecisionType;
  outcome : string
}.

Record DemoState := mkDemo {
  isDemoMode : bool;
  currentDay : Z;
  phase : string;
  hrv : HRVData;
  activeEvents : list CalendarEvent;
  interventionHistory : list InterventionRecord
}.

Definition initialHRV : HRVData := mkHRV 50 50 0 normal.

Definition initialState : DemoState :=
  mkDemo false 1 "Total Silence" initialHRV [] [].

Inductive HrvPreset := PresetNormal | PresetStressed | PresetCritical | PresetPanic.

Definition setHRV (preset : HrvPreset) (prev : DemoState) : DemoState :=
  let baseline := 50 in
  let '(current, change, status) :=
    match preset with
    | PresetStressed => (45, -10, elevated)
    | PresetCritical => (40, -20, critical)
    | PresetPanic => (35, -30, critical)
    | PresetNormal => (50, 0, normal)
    end in
  mkDemo (isDemoMode prev) (currentDay prev) (phase prev)
         (mkHRV current baseline change status)
         (activeEvents prev) (interventionHistory prev).

Inductive EventPreset := EvNone | EvBoard | EvNegotiation | EvHighstakes.

Definition setCalendarEvent (eventType : EventPreset) (now : Z)
                            (prev : DemoState) : DemoState :=
  let startTime := now in
  let endTime := now + 60 * 60 * 1000 in
  let events :=
    match eventType with
    | EvBoard => [mkEvent "1" "Board Meeting" startTime endTime high]
    | EvNegotiation => [mkEvent "2" "Contract Negotiation" startTime endTime high]
    | EvHighstakes => [mkEvent "3" "! High-Stakes Decision" startTime endTime high]
    | EvNone => []
    end in
  mkDemo (isDemoMode prev) (currentDay prev) (phase prev) (hrv prev)
         events (interventionHistory prev).

Definition setDay (day : Z) (prev : DemoState) : DemoState :=
  let phase :=
    if day <=? 2 then "Total Silence"%string
    else if day <=? 5 then "Intervention Logic"%string
    else if day =? 7 then "Reflection"%string
    else "Observation"%string in
  mkDemo (isDemoMode prev) day phase (hrv prev)
         (activeEvents prev) (interventionHistory prev).

Inductive ScreenState := void | brake | reflection | onboarding.

Definition is_void (s : ScreenState) : bool :=
  match s with
  | void => true
  | _ => false
  end.

(** The condition of the App's auto-trigger effect; when it holds the effect
    schedules [screen: 'brake']. *)
Definition autoTrigger (demoState : DemoState) (screen : ScreenState) : bool :=
  isDemoMode demoState &&
  (change (hrv demoState) <=? -20) &&
  (0 <? Z.of_nat (List.length (activeEvents demoState))) &&
  (3 <=? currentDay demoState) &&
  (currentDay demoState <=? 5) &&
  is_void screen.

(** [handleBrakeDecision]: the delay of the re-check timer it arms, if any. *)
Definition handleBrakeDecision_recheck (d : MockClient.DecisionType) : option Z :=
  match d with
  | MockClient.Delay => Some 1200000
  | MockClient.Proceed => None
  end.

(** The drop test on a reading: [current / baseline <= 0.8]. *)
Definition dropRatio_le_0_8 (h : HRVData) : Prop :=
  (inject_Z (current h) / inject_Z (baseline h) <= 8 # 10)%Q.

Definition is_high (e : CalendarEvent) : bool :=
  match riskLevel e with
  | high => true
  | _ => false
  end.

(** *** The remaining operations of the demo context *)

Definition toggleDemoMode (prev : DemoState) : DemoState :=
  mkDemo (negb (isDemoMode prev)) (currentDay prev) (phase prev) (hrv prev)
         (activeEvents prev) (interventionHistory prev).

(** [now] is the time value that the source renders with [toLocaleString];
    the history keeps the newest record first and at most five of them. *)
Definition addIntervention (decision : MockClient.DecisionType) (now : Z)
                           (prev : DemoState) : DemoState :=
  let intervention :=
    mkIntervention now decision
      (match decision with
       | MockClient.Proceed => "Completed"
       | MockClient.Delay => "Delayed"
       end)%string in
  mkDemo (isDemoMode prev) (currentDay prev) (phase prev) (hrv prev)
         (activeEvents prev)
         (firstn 5 (intervention :: interventionHistory prev)).

Definition resetDemo (prev : DemoState) : DemoState := initialState.

(** What a user of the demo panel can do to the demo state. *)
Inductive DemoOp :=
| DToggleDemoMode
| DSetHRV (preset : HrvPreset)
| DSetCalendarEvent (eventType : EventPreset) (now : Z)
| DAddIntervention (decision : MockClient.DecisionType) (now : Z)
| DSetDay (day : Z)
| DResetDemo.

Definition demo_step (s : DemoState) (o : DemoOp) : DemoState :=
  match o with
  | DToggleDemoMode => toggleDemoMode s
  | DSetHRV p => setHRV p s
  | DSetCalendarEvent e now => setCalendarEvent e now s
  | DAddIntervention d now => addIntervention d now s
  | DSetDay day => setDay day s
  | DResetDemo => resetDemo s
  end.

Definition demo_run (ops : list DemoOp) (s : DemoState) : DemoState :=
  fold_left demo_step ops s.

(** *** The mode toggle: the toast it shows, from the state before the toggle *)

Definition toastMessage (demoState : DemoState) : string :=
  if isDemoMode demoState
  then "Switched to Production Mode"%string
  else "Switched to Demo Mode"%string.

(** *** The demo controls: which simulator button is highlighted *)

Definition presetChange (p : HrvPreset) : Z :=
  match p with
  | PresetNormal => 0
  | PresetStressed => -10
  | PresetCritical => -20
  | PresetPanic => -30
  end.

Definition hrvButtonActive (p : HrvPreset) (demoState : DemoState) : bool :=
  change (hrv demoState) =? presetChange p.

(** [title.includes(needle)] *)
Definition includes (title needle : string) : bool :=
  match String.index 0 needle title with
  | Some _ => true
  | None => false
  end.

Definition eventButtonActive (e : EventPreset) (demoState : DemoState) : bool :=
  match e with
  | EvNone => Nat.eqb (List.length (activeEvents demoState)) 0
  | EvBoard =>
      existsb (fun ev => String.eqb (title ev) "Board Meeting") (activeEvents demoState)
  | EvNegotiation =>
      existsb (fun ev => String.eqb (title ev) "Contract Negotiation")
              (activeEvents demoState)
  | EvHighstakes =>
      existsb (fun ev => includes (title ev) "High-Stakes") (activeEvents demoState)
  end.

(** The colour class of a day on the 7-day timeline. *)
Definition timelineClass (day : Z) : string :=
  if day <=? 2 then "phase-silence"%string
  else if day <=? 5 then "phase-intervention"%string
  else "phase-reflection"%string.

End Demo.

(** ** The App component: how it drives the client *)

Module App.
Import Js MockClient.

Record AppState := mkApp {
  screen : Demo.ScreenState;
  userId : option string;
  currentDay : Z;
  phase : string
}.

Definition initialAppState : AppState :=
  mkApp Demo.void None 1 "Total Silence".

(** [setAppState(prev => ({ ...prev, screen }))] *)
Definition setScreen (scr : Demo.ScreenState) (prev : AppState) : AppState :=
  mkApp scr (userId prev) (currentDay prev) (phase prev).

Definition truthy_opt (u : option string) : bool :=
  match u with
  | Some s => truthy s
  | None => false
  end.

Definition is_onboarding (s : Demo.ScreenState) : bool :=
  match s with
  | Demo.onboarding => true
  | _ => false
  end.

(** The two polling effects return at once unless this holds (v0.2). *)
Definition monitoring (appState : AppState) (demoState : Demo.DemoState) : bool :=
  negb (negb (truthy_opt (userId appState))
        || is_onboarding (screen appState)
        || Demo.isDemoMode demoState).

(** One poll of [checkState].  [appState] is the state of the render that
    installed the effect; the result is the state update the poll makes. *)
Definition checkState (appState : AppState) : JS (AppState -> AppState) :=
  response <- getState ;;
  let state := StateResponse.state response in
  let refresh := fun prev : AppState =>
    mkApp (screen prev) (userId prev)
          (StateBody.current_day state) (StateBody.phase state) in
  brakeCheck <- checkBrakeScreen ;;
  if StateCheckResponse.should_display brakeCheck && Demo.is_void (screen appState)
  then ret (fun prev => setScreen Demo.brake (refresh prev))
  else ret refresh.

(** Local time: [tz t] is the offset, in milliseconds, of local time from
    UTC at the instant [t]. *)
Definition getHours (tz : Z -> Z) (t : Z) : Z := ((t + tz t) / 3600000) mod 24.

Definition getMinutes (tz : Z -> Z) (t : Z) : Z := ((t + tz t) / 60000) mod 60.

(** One poll of [checkReflection]. *)
Definition checkReflection (tz : Z -> Z) : JS (AppState -> AppState) :=
  state <- getState ;;
  if StateBody.current_day (StateResponse.state state) =? 7
  then
    now <- new_Date ;;
    if (getHours tz now =? 9) && (getMinutes tz now <? 5)
    then ret (setScreen Demo.reflection)
    else ret (fun prev => prev)
  else ret (fun prev => prev).

(** The callback that [handleBrakeDecision] hands to its 20-minute timer.
    [appState] is the state of the render the handler was created in. *)
Definition brakeRecheck (appState : AppState) : JS (AppState -> AppState) :=
  response <- checkBrakeScreen ;;
  if StateCheckResponse.should_display response && Demo.is_void (screen appState)
  then ret (setScreen Demo.brake)
  else ret (fun prev => prev).

(** [handleBrakeDecision]: the new demo state, the immediate state update and
    the timer it arms (delay and callback), if any.  [now] is the clock reading
    taken by [addIntervention]. *)
Definition handleBrakeDecision (appState : AppState) (demoState : Demo.DemoState)
    (decision : DecisionType) (now : Z)
    : Demo.DemoState * (AppState -> AppState) * option (Z * JS (AppState -> AppState)) :=
  (if Demo.isDemoMode demoState
   then Demo.addIntervention decision now demoState
   else demoState,
   setScreen Demo.void,
   match decision with
   | Delay => Some (1200000, brakeRecheck appState)
   | Proceed => None
   end).

Definition handleReflection (demoState : Demo.DemoState) (response : ReflectionAnswer)
    : Demo.DemoState * (AppState -> AppState) :=
  (if Demo.isDemoMode demoState then Demo.setDay 1 demoState else demoState,
   fun prev => mkApp Demo.void (userId prev) 1 (phase prev)).

(** [handleMindfulIntervention]: the new demo state; 300 ms later the screen
    is set to the brake screen.  [now] is the clock reading taken by
    [setCalendarEvent]. *)
Definition handleMindfulIntervention (demoState : Demo.DemoState) (now : Z)
    : Demo.DemoState * (AppState -> AppState) :=
  let d1 := Demo.setHRV Demo.PresetPanic demoState in
  let d2 := Demo.setCalendarEvent Demo.EvBoard now d1 in
  (if (Demo.currentDay demoState <? 3) || (5 <? Demo.currentDay demoState)
   then Demo.setDay 3 d2
   else d2,
   setScreen Demo.brake).

(** [initApp] of the v0.2 App: straight to the void, as the stored user or as
    a guest. *)
Definition initApp : JS (AppState -> AppState) :=
  storedUserId <- gets (fun w => omtobe_user_id (localStorage w)) ;;
  let uid := if truthy_opt storedUserId then storedUserId
             else Some "guest_user"%string in
  healthCheck ;;
  ret (fun prev => mkApp Demo.void uid (currentDay prev) (phase prev)).

(** [initApp] of the v0.1 App (second half of the file): a stored user is
    handed to the client with [setUserId]; without one, onboarding is shown. *)
Definition initApp_v01 : JS (AppState -> AppState) :=
  storedUserId <- gets (fun w => omtobe_user_id (localStorage w)) ;;
  update <- match storedUserId with
            | Some s =>
                if truthy s
                then setUserId s ;;
                     ret (fun prev => mkApp Demo.void (Some s) (currentDay prev) (phase prev))
                else ret (setScreen Demo.onboarding)
            | None => ret (setScreen Demo.onboarding)
            end ;;
  healthCheck ;;
  ret update.

(** [handleOnboarding], up to the state update it makes 500 ms later. *)
Definition handleOnboarding (uid email timezone : string) : JS (AppState -> AppState) :=
  createUser uid email timezone ;;
  ret (fun prev => mkApp Demo.void (Some uid) (currentDay prev) (phase prev)).

(** [renderScreen]: the component shown for the current screen, with the
    handlers it is given.  The handlers are those of the render that shows the
    component, so they see that render's [appState] and [demoState]. *)
Inductive Rendered :=
| BrakeScreen
    (onDecision : DecisionType -> Z ->
       Demo.DemoState * (AppState -> AppState) * option (Z * JS (AppState -> AppState)))
| ReflectionScreen
    (onReflection : ReflectionAnswer -> Demo.DemoState * (AppState -> AppState))
| OnboardingScreen
    (onComplete : string -> string -> string -> JS (AppState -> AppState))
| DigitalVoid
    (state : AppState)
    (onMindfulIntervention : Z -> Demo.DemoState * (AppState -> AppState)).

Definition renderScreen (appState : AppState) (demoState : Demo.DemoState) : Rendered :=
  match screen appState with
  | Demo.brake => BrakeScreen (handleBrakeDecision appState demoState)
  | Demo.reflection => ReflectionScreen (handleReflection demoState)
  | Demo.onboarding => OnboardingScreen handleOnboarding
  | Demo.void => DigitalVoid appState (handleMindfulIntervention demoState)
  end.

End App.

Import Js MockClient.

(** ** Observers and sample worlds used in the statements *)

Definition cycleStart (w : World) : Z := cycleStartDate (this w).

(** The reading that the [k]-th next [new Date()] / [Date.now()] returns. *)
Definition nth_reading (w : World) (k : nat) : Z := clock w (k + clock_reads w)%nat.

(** The value that the [k]-th next [Math.random()] returns. *)
Definition nth_draw (w : World) (k : nat) : Q := random w (k + random_draws w)%nat.

(** The day that [getCurrentPhase] works with inside [checkBrakeScreen] and
    [getState]: it is computed from the second clock reading of the call. *)
Definition phaseDay (w : World) : Z := dayOfCycle (cycleStart w) (nth_reading w 1).

Definition evalJS {A} (c : JS A) (w : World) : A := fst (runState c w).

Definition execJS {A} (c : JS A) (w : World) : World := snd (runState c w).

(** The object literal pushed on the decision log. *)
Definition decisionEntry (ts : Z) (d : DecisionType) : JsObject :=
  [("timestamp"%string, JIsoTime ts);
   ("decision_type"%string, JString (decisionName d))].

Definition reflectionEntry (ts : Z) (r : ReflectionAnswer) : JsObject :=
  [("timestamp"%string, JIsoTime ts);
   ("response"%string, JString (answerName r))].

Definition decisionLog (w : World) : list JsObject :=
  parse_or_empty (omtobe_decisions (localStorage w)).

Definition reflectionLog (w : World) : list JsObject :=
  parse_or_empty (omtobe_reflections (localStorage w)).

(** A clock that stands still, and draws listed in advance. *)
Definition steady (t : Z) : nat -> Z := fun _ => t.

Definition draws (l : list Q) (rest : Q) : nat -> Q := fun n => nth n l rest.

(** The storage of a returning user whose cycle started at [t]. *)
Definition storage_started_at (t : Z) : LocalStorage :=
  mkLocalStorage (Some "u1"%string) (Some t) None None.

(** A client on day 4 of its cycle (three and a half days in). *)
Definition day4_world (rnd : nat -> Q) : World :=
  new_client (steady (3 * MS_PER_DAY + MS_PER_DAY / 2)) rnd (storage_started_at 0).

(** A client on day 7 (six days in). *)
Definition day7_world (rnd : nat -> Q) : World :=
  new_client (steady (6 * MS_PER_DAY)) rnd (storage_started_at 0).

(** A client whose cycle start (1700000000000 ms, a November 2023 instant)
    was stored before the system clock was set back: the clock now reads one
    millisecond less. *)
Definition skewed_world : World :=
  new_client (steady 1699999999999) (draws [] 0%Q)
             (storage_started_at 1700000000000).

(** The decisions and reflections that a list of operations records. *)
Fixpoint decisions_of (ops : list Op) : list DecisionType :=
  match ops with
  | [] => []
  | OpRecordDecision d :: ops' => d :: decisions_of ops'
  | _ :: ops' => decisions_of ops'
  end.

Fixpoint reflections_of (ops : list Op) : list ReflectionAnswer :=
  match ops with
  | [] => []
  | OpRecordReflection r :: ops' => r :: reflections_of ops'
  | _ :: ops' => reflections_of ops'
  end.

(** Operations that start a new cycle. *)
Definition resets_cycle (o : Op) : bool :=
  match o with
  | OpSetUserId _ | OpCreateUser _ _ _ | OpRecordReflection _ => true
  | _ => false
  end.

(** Operations that only read. *)
Definition read_only (o : Op) : bool :=
  match o with
  | OpGetUserId | OpHealthCheck | OpGetState
  | OpGetDecisionHistory _ | OpGetReflectionHistory _ => true
  | _ => false
  end.

(** The time value in the [timestamp] field of a log entry. *)
Definition entry_time (e : JsObject) : option Z :=
  match get_field e "timestamp" with
  | Some (JIsoTime t) => Some t
  | _ => None
  end.

Fixpoint log_times (log : list JsObject) : list Z :=
  match log with
  | [] => []
  | e :: log' =>
      match entry_time e with
      | Some t => t :: log_times log'
      | None => log_times log'
      end
  end.

(** A clock that never goes back. *)
Definition monotone (clk : nat -> Z) : Prop :=
  forall i j, (i <= j)%nat -> clk i <= clk j.

(** A clock that advances by [step] milliseconds at every reading. *)
Definition ticking (t0 step : Z) : nat -> Z := fun n => t0 + step * Z.of_nat n.

(** The time of day, in milliseconds since local midnight. *)
Definition local_time_of_day (tz : Z -> Z) (t : Z) : Z := (t + tz t) mod MS_PER_DAY.

(** The entries that one operation adds to the logs. *)
Definition new_decisions (o : Op) (w : World) : list JsObject :=
  match o with
  | OpRecordDecision d => [decisionEntry (nth_reading w 0) d]
  | _ => []
  end.

Definition new_reflections (o : Op) (w : World) : list JsObject :=
  match o with
  | OpRecordReflection r => [reflectionEntry (nth_reading w 0) r]
  | _ => []
  end.

(** What a monotone clock guarantees about a log: its timestamps are in
    non-decreasing order and none lies after the next clock reading. *)
Definition log_in_order (clk : nat -> Z) (w : World) (log : list JsObject) : Prop :=
  clock w = clk /\
  StronglySorted Z.le (log_times log) /\
  Forall (fun t => t <= clk (clock_reads w)) (log_times log).

(** What the demo operations keep true of the demo state. *)
Definition hrv_consistent (h : Demo.HRVData) : Prop :=
  Demo.baseline h = 50 /\
  Demo.change h * Demo.baseline h = (Demo.current h - Demo.baseline h) * 100 /\
  (Demo.status h = Demo.critical <-> Demo.change h <= -20).

Definition event_ok (ev : Demo.CalendarEvent) : Prop :=
  Demo.riskLevel ev = Demo.high /\
  Demo.endTime ev = Demo.startTime ev + 60 * 60 * 1000.

Definition record_ok (r : Demo.InterventionRecord) : Prop :=
  Demo.outcome r =
    match Demo.decision r with
    | Proceed => "Completed"%string
    | Delay => "Delayed"%string
    end.

Definition demo_ok (s : Demo.DemoState) : Prop :=
  (List.length (Demo.interventionHistory s) <= 5)%nat /\
  Forall record_ok (Demo.interventionHistory s) /\
  hrv_consistent (Demo.hrv s) /\
  (List.length (Demo.activeEvents s) <= 1)%nat /\
  Forall event_ok (Demo.activeEvents s) /\
  Demo.phase s = Demo.phase (Demo.setDay (Demo.currentDay s) s).

(** The window in which the reflection screen is shown: 09:00:00.000 up to,
    not including, 09:05:00.000 local time. *)
Definition in_reflection_window (tz : Z -> Z) (t : Z) : Prop :=
  9 * 3600000 <= local_time_of_day tz t < 9 * 3600000 + 5 * 60000.

(** * Properties *)

(** ** Running the methods *)

Lemma getCurrentDay_run (w : World) :
  runState getCurrentDay w =
  (dayOfCycle (cycleStart w) (nth_reading w 0),
   mkWorld (clock w) (S (clock_reads w)) (random w) (random_draws w)
           (localStorage w) (this w)).
Proof. reflexivity. Qed.

Lemma Qltb_lt (x y : Q) : Qltb x y = true <-> (x < y)%Q.
Proof. unfold Qltb, Qlt. apply Z.ltb_lt. Qed.

(** Runs [checkBrakeScreen] symbolically: the only branching is on the phase
    test and on the comparison of the draw. *)
Ltac run_checkBrakeScreen :=
  unfold evalJS, execJS, checkBrakeScreen, phaseDay, nth_draw, nth_reading,
    cycleStart;
  cbn;
  destruct (String.eqb _ "INTERVENTION_LOGIC"); cbn;
  [ destruct (Qltb _ double_0_3); reflexivity | reflexivity ].

Lemma checkBrakeScreen_should_display (w : World) :
  StateCheckResponse.should_display (evalJS checkBrakeScreen w) =
  String.eqb (phaseOfDay (phaseDay w)) "INTERVENTION_LOGIC" &&
  Qltb (nth_draw w 0) double_0_3.
Proof. run_checkBrakeScreen. Qed.

Lemma checkBrakeScreen_phase (w : World) :
  StateCheckResponse.phase (evalJS checkBrakeScreen w) = phaseOfDay (phaseDay w).
Proof. run_checkBrakeScreen. Qed.

Lemma checkBrakeScreen_current_day (w : World) :
  StateCheckResponse.current_day (evalJS checkBrakeScreen w) =
  dayOfCycle (cycleStart w) (nth_reading w 0).
Proof. run_checkBrakeScreen. Qed.

Lemma checkBrakeScreen_event_id (w : World) :
  StateCheckResponse.event_id (evalJS checkBrakeScreen w) =
  if StateCheckResponse.should_display (evalJS checkBrakeScreen w)
  then Some "mock_event_001"%string else None.
Proof. run_checkBrakeScreen. Qed.

(** The reported HRV is drawn independently of the decision to display. *)
Lemma checkBrakeScreen_hrv (w : World) :
  StateCheckResponse.hrv_baseline_mean (evalJS checkBrakeScreen w) = Some 60%Q /\
  exists h, StateCheckResponse.hrv_current (evalJS checkBrakeScreen w) =
            Some (45 + h * 15)%Q.
Proof.
  split; [run_checkBrakeScreen |].
  unfold evalJS, checkBrakeScreen. cbn.
  destruct (String.eqb _ "INTERVENTION_LOGIC"); cbn;
    [destruct (Qltb _ double_0_3) |]; eexists; reflexivity.
Qed.

(** The phase is the intervention phase exactly on days 3, 4 and 5. *)
Lemma phaseOfDay_intervention (day : Z) :
  String.eqb (phaseOfDay day) "INTERVENTION_LOGIC" = true <-> 3 <= day <= 5.
Proof.
  unfold phaseOfDay.
  destruct (Z.leb_spec day 2); [cbn; split; [discriminate | lia] |].
  destruct (Z.leb_spec day 5); cbn; split; try discriminate; try lia; trivial.
Qed.

Lemma phaseOfDay_not_intervention (day : Z) :
  ~ 3 <= day <= 5 ->
  String.eqb (phaseOfDay day) "INTERVENTION_LOGIC" = false.
Proof.
  intros H. destruct (String.eqb _ _) eqn:E; [| reflexivity].
  apply phaseOfDay_intervention in E. contradiction.
Qed.

(** ** The day of the cycle *)

Lemma MS_PER_DAY_value : MS_PER_DAY = 86400000.
Proof. reflexivity. Qed.

Lemma dayOfCycle_nonneg (start now : Z) :
  start <= now ->
  dayOfCycle start now = ((now - start) / MS_PER_DAY) mod 7 + 1.
Proof.
  intros H. unfold dayOfCycle. cbv zeta.
  rewrite Z.rem_mod_nonneg; [reflexivity | | lia].
  apply Z.div_pos; [lia | rewrite MS_PER_DAY_value; lia].
Qed.

(** C3: while the clock is not behind the cycle start, [getCurrentDay]
    returns floor(elapsed / one day) mod 7, plus 1; the result lies in 1..7, and
    at exactly seven elapsed days it is 1 again. *)
Theorem getCurrentDay_in_cycle (w : World)
    (Hnow : cycleStart w <= nth_reading w 0) :
  let elapsed := nth_reading w 0 - cycleStart w in
  let day := evalJS getCurrentDay w in
  day = (elapsed / MS_PER_DAY) mod 7 + 1 /\
  1 <= day <= 7 /\
  (elapsed = 7 * MS_PER_DAY -> day = 1).
Proof.
  intros elapsed day.
  assert (Hday : day = (elapsed / MS_PER_DAY) mod 7 + 1).
  { subst day elapsed. unfold evalJS. rewrite getCurrentDay_run. cbn [fst].
    apply dayOfCycle_nonneg. exact Hnow. }
  split; [exact Hday |].
  split.
  - pose proof (Z.mod_pos_bound (elapsed / MS_PER_DAY) 7 ltac:(lia)). lia.
  - intros H7. rewrite Hday, H7.
    rewrite Z.div_mul by (rewrite MS_PER_DAY_value; lia).
    reflexivity.
Qed.

Lemma getCurrentDay_in_cycle_witness :
  let w := new_client (steady (7 * MS_PER_DAY)) (draws [] 0%Q) (storage_started_at 0) in
  cycleStart w <= nth_reading w 0 /\
  evalJS getCurrentDay w = 1.
Proof.
  split.
  - vm_compute. discriminate.
  - apply (getCurrentDay_in_cycle
             (new_client (steady (7 * MS_PER_DAY)) (draws [] 0%Q) (storage_started_at 0))).
    + vm_compute. discriminate.
    + reflexivity.
Defined.

(** C4 (the code does not do this): one millisecond before the cycle start
    [getCurrentDay] returns day 0, not day 1. *)
Theorem getCurrentDay_before_cycle_start :
  nth_reading skewed_world 0 = cycleStart skewed_world - 1 /\
  evalJS getCurrentDay skewed_world = 0 /\
  StateBody.current_day (StateResponse.state (evalJS getState skewed_world)) = 0.
Proof. repeat split. Qed.

(** Behind the cycle start the result is never above 1 and can be as low as -5. *)
Lemma dayOfCycle_behind (start now : Z) :
  now < start -> -5 <= dayOfCycle start now <= 1.
Proof.
  intros H. unfold dayOfCycle. cbv zeta.
  set (d := (now - start) / MS_PER_DAY).
  assert (Hd : d <= 0).
  { subst d. apply Z.lt_succ_r. apply Z.div_lt_upper_bound;
      rewrite ?MS_PER_DAY_value; lia. }
  pose proof (Z.rem_bound_pos_neg d 7 ltac:(lia) Hd). lia.
Qed.

Lemma dayOfCycle_last_day_before (start now : Z) :
  start - MS_PER_DAY <= now < start -> dayOfCycle start now = 0.
Proof.
  intros H. unfold dayOfCycle. cbv zeta.
  replace ((now - start) / MS_PER_DAY) with (-1); [reflexivity |].
  apply Z.div_unique with (r := now - start + MS_PER_DAY);
    rewrite ?MS_PER_DAY_value in *; lia.
Qed.

(** ** The trigger check *)

Lemma should_display_needs_intervention (w : World) :
  StateCheckResponse.should_display (evalJS checkBrakeScreen w) = true ->
  StateCheckResponse.phase (evalJS checkBrakeScreen w) = "INTERVENTION_LOGIC"%string /\
  3 <= phaseDay w <= 5.
Proof.
  rewrite checkBrakeScreen_should_display, checkBrakeScreen_phase.
  intros H. apply andb_prop in H. destruct H as [H _].
  split.
  - apply String.eqb_eq. exact H.
  - apply phaseOfDay_intervention. exact H.
Qed.

(** C2: on days 1, 2 and 7 the check returns [should_display = false] whatever
    the random source yields (so whatever HRV value the response reports) and
    whatever the rest of the state is; no event id is reported and the phase
    is not the intervention phase. *)
Theorem checkBrakeScreen_silent_outside_intervention (w : World) (day : Z)
    (Hday : In day [1; 2; 7]) (Hnow : phaseDay w = day) :
  let r := evalJS checkBrakeScreen w in
  StateCheckResponse.should_display r = false /\
  StateCheckResponse.event_id r = None /\
  StateCheckResponse.phase r <> "INTERVENTION_LOGIC"%string /\
  (nth_reading w 0 = nth_reading w 1 -> StateCheckResponse.current_day r = day).
Proof.
  intros r.
  assert (Hout : ~ 3 <= phaseDay w <= 5).
  { rewrite Hnow. cbn in Hday. lia. }
  assert (Hsd : StateCheckResponse.should_display r = false).
  { subst r. rewrite checkBrakeScreen_should_display.
    rewrite (phaseOfDay_not_intervention Hout). reflexivity. }
  split; [exact Hsd |].
  split.
  { subst r. rewrite checkBrakeScreen_event_id. fold (evalJS checkBrakeScreen w).
    rewrite Hsd. reflexivity. }
  split.
  { subst r. rewrite checkBrakeScreen_phase. intros E.
    apply String.eqb_eq in E.
    rewrite (phaseOfDay_not_intervention Hout) in E. discriminate. }
  intros Hsame. subst r. rewrite checkBrakeScreen_current_day.
  rewrite Hsame. exact Hnow.
Qed.

(** Day 7, with draws that would fire the trigger on an intervention day and a
    reported HRV of 45 against a baseline of 60. *)
Lemma checkBrakeScreen_silent_outside_intervention_witness :
  let w := day7_world (draws [] 0%Q) in
  In 7 [1; 2; 7] /\ phaseDay w = 7 /\
  StateCheckResponse.should_display (evalJS checkBrakeScreen w) = false.
Proof.
  split; [cbn; tauto |].
  split; [reflexivity |].
  apply (@checkBrakeScreen_silent_outside_intervention
           (day7_world (draws [] 0%Q)) 7).
  - cbn; tauto.
  - reflexivity.
Defined.

(** C1 as stated fails: on day 4 the check returns [should_display = true]
    while the HRV it reports is 52.5 against a baseline of 60 (ratio 0.875). *)
Lemma checkBrakeScreen_displays_without_drop :
  let r := evalJS checkBrakeScreen (day4_world (draws [0; 1 # 2] 0)%Q) in
  StateCheckResponse.current_day r = 4 /\
  StateCheckResponse.should_display r = true /\
  match StateCheckResponse.hrv_current r, StateCheckResponse.hrv_baseline_mean r with
  | Some c, Some b => (8 # 10 < c / b)%Q
  | _, _ => False
  end.
Proof. vm_compute. repeat split. Qed.

Lemma autoTrigger_iff (d : Demo.DemoState) (screen : Demo.ScreenState) :
  Demo.autoTrigger d screen = true <->
  Demo.isDemoMode d = true /\
  Demo.change (Demo.hrv d) <= -20 /\
  Demo.activeEvents d <> [] /\
  3 <= Demo.currentDay d <= 5 /\
  screen = Demo.void.
Proof.
  unfold Demo.autoTrigger.
  rewrite !andb_true_iff, !Z.leb_le, Z.ltb_lt.
  assert (Hlen : 0 < Z.of_nat (List.length (Demo.activeEvents d)) <->
                 Demo.activeEvents d <> []).
  { destruct (Demo.activeEvents d); cbn; split; try congruence; lia. }
  assert (Hvoid : Demo.is_void screen = true <-> screen = Demo.void).
  { destruct screen; cbn; split; congruence. }
  rewrite Hlen, Hvoid. tauto.
Qed.

(** The demo trigger on day 4: a 20 percent drop with the board meeting
    active fires; a 10 percent drop with the meeting does not; a 30 percent
    drop without any event does not; nor does anything on day 2. *)
Example autoTrigger_drop_and_event :
  let d := Demo.setHRV Demo.PresetCritical
             (Demo.setCalendarEvent Demo.EvBoard 0
                (Demo.setDay 4 (Demo.mkDemo true 1 "Total Silence" Demo.initialHRV [] []))) in
  Demo.autoTrigger d Demo.void = true.
Proof. reflexivity. Qed.

Example autoTrigger_small_drop :
  let d := Demo.setHRV Demo.PresetStressed
             (Demo.setCalendarEvent Demo.EvBoard 0
                (Demo.setDay 4 (Demo.mkDemo true 1 "Total Silence" Demo.initialHRV [] []))) in
  Demo.autoTrigger d Demo.void = false.
Proof. reflexivity. Qed.

Example autoTrigger_no_event :
  let d := Demo.setHRV Demo.PresetPanic
             (Demo.setCalendarEvent Demo.EvNone 0
                (Demo.setDay 4 (Demo.mkDemo true 1 "Total Silence" Demo.initialHRV [] []))) in
  Demo.autoTrigger d Demo.void = false.
Proof. reflexivity. Qed.

Example autoTrigger_silent_day :
  let d := Demo.setHRV Demo.PresetPanic
             (Demo.setCalendarEvent Demo.EvBoard 0
                (Demo.setDay 2 (Demo.mkDemo true 1 "Total Silence" Demo.initialHRV [] []))) in
  Demo.autoTrigger d Demo.void = false.
Proof. reflexivity. Qed.

(** With the simulator presets the recorded percentage and the ratio agree. *)
Lemma setHRV_change_iff_ratio (p : Demo.HrvPreset) (prev : Demo.DemoState) :
  Demo.change (Demo.hrv (Demo.setHRV p prev)) <= -20 <->
  Demo.dropRatio_le_0_8 (Demo.hrv (Demo.setHRV p prev)).
Proof.
  unfold Demo.dropRatio_le_0_8.
  destruct p; cbn; unfold Qle; cbn; split; intros H; try lia.
Qed.

Lemma setCalendarEvent_all_high (e : Demo.EventPreset) (now : Z)
    (prev : Demo.DemoState) (ev : Demo.CalendarEvent) :
  In ev (Demo.activeEvents (Demo.setCalendarEvent e now prev)) ->
  Demo.riskLevel ev = Demo.high.
Proof.
  destruct e; cbn; intros H; try contradiction;
    destruct H as [H | []]; subst ev; reflexivity.
Qed.

(** C1, as the code has it: on an intervention day the mock check displays
    exactly when its random draw is below 0.3, without looking at HRV or
    events.  The AND of the two signals is what the App's demo auto-trigger
    tests: it fires exactly when demo mode is on, the HRV change is at most
    -20 percent, some event is active, the day is 3..5 and the screen is the
    void; on simulator presets that means ratio <= 0.8 and a high-risk event. *)
Theorem checkBrakeScreen_display_rule (w : World)
    (Hday : 3 <= phaseDay w <= 5) :
  (StateCheckResponse.should_display (evalJS checkBrakeScreen w) = true <->
   (nth_draw w 0 < double_0_3)%Q) /\
  (forall d screen,
     Demo.autoTrigger d screen = true <->
     Demo.isDemoMode d = true /\
     Demo.change (Demo.hrv d) <= -20 /\
     Demo.activeEvents d <> [] /\
     3 <= Demo.currentDay d <= 5 /\
     screen = Demo.void) /\
  (forall p e now prev screen,
     let d := Demo.setHRV p (Demo.setCalendarEvent e now prev) in
     Demo.autoTrigger d screen = true ->
     Demo.dropRatio_le_0_8 (Demo.hrv d) /\
     exists ev, In ev (Demo.activeEvents d) /\ Demo.riskLevel ev = Demo.high).
Proof.
  split; [| split].
  - rewrite checkBrakeScreen_should_display.
    apply phaseOfDay_intervention in Hday. rewrite Hday. cbn [andb].
    apply Qltb_lt.
  - exact autoTrigger_iff.
  - intros p e now prev screen d Hfire.
    apply autoTrigger_iff in Hfire.
    destruct Hfire as (_ & Hchange & Hev & _).
    split.
    + subst d. apply setHRV_change_iff_ratio. exact Hchange.
    + subst d.
      destruct p, e; cbn in Hev |- *;
        solve [ exfalso; apply Hev; reflexivity
              | eexists; split; [left; reflexivity | reflexivity] ].
Qed.

Lemma checkBrakeScreen_display_rule_witness :
  let w := day4_world (draws [0; 1 # 2] 0)%Q in
  3 <= phaseDay w <= 5 /\
  (StateCheckResponse.should_display (evalJS checkBrakeScreen w) = true <->
   (nth_draw w 0 < double_0_3)%Q).
Proof.
  split.
  - vm_compute. split; discriminate.
  - apply (@checkBrakeScreen_display_rule (day4_world (draws [0; 1 # 2] 0)%Q)).
    vm_compute. split; discriminate.
Defined.

(** C8 as stated fails: two polls of the same client at the same instant,
    with no decision in between, return [true] and then [false]; so do two
    clients that agree on every field, on storage and on the clock. *)
Lemma checkBrakeScreen_depends_on_draw :
  let w := day4_world (draws [1 # 10; 1 # 2; 9 # 10] 0)%Q in
  let w' := execJS checkBrakeScreen w in
  let wA := day4_world (draws [1 # 10] 0)%Q in
  let wB := day4_world (draws [9 # 10] 0)%Q in
  (StateCheckResponse.should_display (evalJS checkBrakeScreen w) = true /\
   StateCheckResponse.should_display (evalJS checkBrakeScreen w') = false /\
   cycleStart w' = cycleStart w /\
   nth_reading w' 1 = nth_reading w 1 /\
   coolingPeriodActive (this w') = coolingPeriodActive (this w) /\
   localStorage w' = localStorage w) /\
  (this wA = this wB /\
   localStorage wA = localStorage wB /\
   nth_reading wA 1 = nth_reading wB 1 /\
   StateCheckResponse.should_display (evalJS checkBrakeScreen wA) = true /\
   StateCheckResponse.should_display (evalJS checkBrakeScreen wB) = false).
Proof. vm_compute. repeat split. Qed.

Lemma Qltb_compat (x y : Q) : (x == y)%Q -> Qltb x double_0_3 = Qltb y double_0_3.
Proof.
  intros E.
  destruct (Qltb x double_0_3) eqn:Hx, (Qltb y double_0_3) eqn:Hy; trivial.
  - apply Qltb_lt in Hx. rewrite E in Hx. apply Qltb_lt in Hx. congruence.
  - apply Qltb_lt in Hy. rewrite <- E in Hy. apply Qltb_lt in Hy. congruence.
Qed.

(** C8, as the code has it: the result is a function of the cycle start, the
    clock reading that fixes the phase, and the random draw.  Two evaluations
    that agree on these three return the same [should_display]. *)
Theorem checkBrakeScreen_deterministic_given_draw (w1 w2 : World)
    (Hstart : cycleStart w1 = cycleStart w2)
    (Hnow : nth_reading w1 1 = nth_reading w2 1)
    (Hdraw : (nth_draw w1 0 == nth_draw w2 0)%Q) :
  StateCheckResponse.should_display (evalJS checkBrakeScreen w1) =
  StateCheckResponse.should_display (evalJS checkBrakeScreen w2).
Proof.
  rewrite !checkBrakeScreen_should_display.
  unfold phaseDay. rewrite Hstart, Hnow.
  rewrite (Qltb_compat Hdraw). reflexivity.
Qed.

Lemma checkBrakeScreen_deterministic_given_draw_witness :
  let w1 := day4_world (draws [1 # 10; 1 # 2] 0)%Q in
  let w2 := day4_world (draws [2 # 20; 3 # 4] 0)%Q in
  cycleStart w1 = cycleStart w2 /\
  nth_reading w1 1 = nth_reading w2 1 /\
  (nth_draw w1 0 == nth_draw w2 0)%Q /\
  StateCheckResponse.should_display (evalJS checkBrakeScreen w1) =
  StateCheckResponse.should_display (evalJS checkBrakeScreen w2).
Proof.
  split; [reflexivity |].
  split; [reflexivity |].
  split; [vm_compute; reflexivity |].
  apply (@checkBrakeScreen_deterministic_given_draw
           (day4_world (draws [1 # 10; 1 # 2] 0)%Q)
           (day4_world (draws [2 # 20; 3 # 4] 0)%Q)).
  - reflexivity.
  - reflexivity.
  - vm_compute. reflexivity.
Defined.

(** ** Decisions *)

Lemma recordDecision_Delay_run (w : World) :
  runState (recordDecision Delay) w =
  (DecisionResponse.mk "decision_recorded" "Delay" (nth_reading w 0)
     "wait_20_mins" (Some (nth_reading w 1 + COOLING_MS)),
   mkWorld (clock w) (S (S (clock_reads w))) (random w) (random_draws w)
     (set_decisions (decisionLog w ++ [decisionEntry (nth_reading w 0) Delay])
                    (localStorage w))
     (this w)).
Proof. reflexivity. Qed.

Lemma recordDecision_Proceed_run (w : World) :
  runState (recordDecision Proceed) w =
  (DecisionResponse.mk "decision_recorded" "Proceed" (nth_reading w 0)
     "proceed_with_decision" None,
   mkWorld (clock w) (S (clock_reads w)) (random w) (random_draws w)
     (set_decisions (decisionLog w ++ [decisionEntry (nth_reading w 0) Proceed])
                    (localStorage w))
     (this w)).
Proof. reflexivity. Qed.

Lemma COOLING_MS_value : COOLING_MS = 1200000.
Proof. reflexivity. Qed.

(** C6 as stated fails: [recordDecision] reads the clock twice, once for the
    timestamp it records and once for [Date.now()].  With a clock that advances
    by one millisecond between the two readings, a Delay recorded with
    timestamp 1700000000000 answers with the re-trigger time 1700001200001,
    one millisecond more than the timestamp plus 20 minutes. *)
Lemma re_trigger_time_is_not_timestamp_plus_20_min :
  let w := new_client (ticking 1700000000000 1) (draws [] 0%Q)
                      (storage_started_at 1699700000000) in
  let r := evalJS (recordDecision Delay) w in
  DecisionResponse.timestamp r = 1700000000000 /\
  decisionLog (execJS (recordDecision Delay) w) =
    [decisionEntry 1700000000000 Delay] /\
  DecisionResponse.re_trigger_time r = Some 1700001200001 /\
  DecisionResponse.re_trigger_time r <>
    Some (DecisionResponse.timestamp r + 20 * 60 * 1000).
Proof.
  vm_compute. repeat split. discriminate.
Qed.

(** C6, as the code has it: for every Delay the re-trigger time is exactly the
    [Date.now()] reading, taken right after the record's timestamp, plus 20
    minutes (1200000 ms, also the delay of the re-check timer the App arms).
    It is the recorded timestamp plus 20 minutes exactly when the clock gives
    the same reading twice, and it is not earlier than that as long as the
    clock has not gone back.  A Proceed answers with no re-trigger time and
    arms no timer. *)
Theorem recordDecision_re_trigger_from_now (w : World) :
  let delay := evalJS (recordDecision Delay) w in
  let proceed := evalJS (recordDecision Proceed) w in
  DecisionResponse.timestamp delay = nth_reading w 0 /\
  DecisionResponse.re_trigger_time delay = Some (nth_reading w 1 + 20 * 60 * 1000) /\
  (DecisionResponse.re_trigger_time delay =
     Some (DecisionResponse.timestamp delay + 20 * 60 * 1000) <->
   nth_reading w 1 = nth_reading w 0) /\
  (nth_reading w 0 <= nth_reading w 1 ->
   exists t, DecisionResponse.re_trigger_time delay = Some t /\
             DecisionResponse.timestamp delay + 20 * 60 * 1000 <= t) /\
  DecisionResponse.next_action delay = "wait_20_mins"%string /\
  Demo.handleBrakeDecision_recheck Delay = Some (20 * 60 * 1000) /\
  DecisionResponse.re_trigger_time proceed = None /\
  DecisionResponse.next_action proceed = "proceed_with_decision"%string /\
  Demo.handleBrakeDecision_recheck Proceed = None.
Proof.
  intros delay proceed. subst delay proceed. unfold evalJS.
  rewrite recordDecision_Delay_run, recordDecision_Proceed_run. cbn [fst].
  cbn [DecisionResponse.timestamp DecisionResponse.re_trigger_time
       DecisionResponse.next_action].
  rewrite COOLING_MS_value.
  split; [reflexivity |].
  split; [reflexivity |].
  split.
  { split.
    - intros H. injection H as H. lia.
    - intros H. rewrite H. reflexivity. }
  split.
  { intros Hle. exists (nth_reading w 1 + 1200000). split; [reflexivity | lia]. }
  repeat split.
Qed.

(** On a clock that stands still the two readings coincide. *)
Lemma recordDecision_re_trigger_from_now_witness :
  let w := day4_world (draws [] 0%Q) in
  let r := evalJS (recordDecision Delay) w in
  nth_reading w 1 = nth_reading w 0 /\
  DecisionResponse.re_trigger_time r =
    Some (DecisionResponse.timestamp r + 20 * 60 * 1000).
Proof.
  split; [reflexivity |].
  apply (proj2 (proj1 (proj2 (proj2
           (@recordDecision_re_trigger_from_now (day4_world (draws [] 0%Q))))))).
  reflexivity.
Defined.

(** Whatever the clock does between the two readings, the re-trigger time is
    the [Date.now()] reading plus 20 minutes. *)
Lemma re_trigger_is_now_plus_cooling (w : World) :
  DecisionResponse.re_trigger_time (evalJS (recordDecision Delay) w) =
  Some (nth_reading w 1 + 1200000).
Proof. reflexivity. Qed.

Lemma getState_flags (w : World) :
  StateBody.cooling_period_active (StateResponse.state (evalJS getState w)) =
  coolingPeriodActive (this w) /\
  StateBody.decision_locked (StateResponse.state (evalJS getState w)) = false.
Proof. split; reflexivity. Qed.

(** C7 as stated fails: on day 4 the trigger fires, Proceed is recorded, the
    state then reports [decision_locked = false], and the next check, at the
    same instant and with the same draw, fires again. *)
Lemma proceed_does_not_lock :
  let w0 := day4_world (draws [] 0%Q) in
  let w1 := execJS checkBrakeScreen w0 in
  let w2 := execJS (recordDecision Proceed) w1 in
  StateCheckResponse.should_display (evalJS checkBrakeScreen w0) = true /\
  StateBody.decision_locked (StateResponse.state (evalJS getState w2)) = false /\
  nth_reading w2 1 = nth_reading w0 1 /\
  nth_draw w2 0 = nth_draw w0 0 /\
  StateCheckResponse.should_display (evalJS checkBrakeScreen w2) = true.
Proof. vm_compute. repeat split. Qed.

(** C7, as the code has it: recording Proceed appends one entry to the
    decision log, answers with no re-trigger time, and leaves every field of
    the client as it was; the state goes on reporting [decision_locked =
    false], and the next check displays exactly when the phase is the
    intervention phase and its draw is below 0.3. *)
Theorem recordDecision_Proceed_sets_no_lock (w : World) :
  let resp := evalJS (recordDecision Proceed) w in
  let w' := execJS (recordDecision Proceed) w in
  this w' = this w /\
  decisionLog w' = decisionLog w ++ [decisionEntry (nth_reading w 0) Proceed] /\
  DecisionResponse.re_trigger_time resp = None /\
  DecisionResponse.next_action resp = "proceed_with_decision"%string /\
  StateBody.decision_locked (StateResponse.state (evalJS getState w')) = false /\
  StateBody.cooling_period_active (StateResponse.state (evalJS getState w')) =
    coolingPeriodActive (this w) /\
  StateCheckResponse.should_display (evalJS checkBrakeScreen w') =
    String.eqb (phaseOfDay (phaseDay w')) "INTERVENTION_LOGIC" &&
    Qltb (nth_draw w' 0) double_0_3.
Proof.
  intros resp w'. subst resp w'. unfold evalJS at 1 2, execJS.
  rewrite recordDecision_Proceed_run. cbn [fst snd].
  repeat split.
  apply checkBrakeScreen_should_display.
Qed.

(** C9 as stated fails: the entry persisted for a decision has the two fields
    [timestamp] and [decision_type], and no [day]. *)
Lemma decision_entry_has_no_day :
  let w' := execJS (recordDecision Delay) (day4_world (draws [] 0%Q)) in
  match decisionLog w' with
  | [e] => field_names e = ["timestamp"; "decision_type"]%string /\
           get_field e "day" = None
  | _ => False
  end.
Proof. vm_compute. split; reflexivity. Qed.

Lemma recordDecision_log (w : World) (d : DecisionType) :
  decisionLog (execJS (recordDecision d) w) =
  decisionLog w ++ [decisionEntry (nth_reading w 0) d].
Proof. destruct d; reflexivity. Qed.

(** C9, as the code has it: each recorded decision appends one entry whose
    fields are exactly [timestamp] and [decision_type] (Proceed or Delay);
    every other field name, in particular any event or HRV field, is absent. *)
Theorem recordDecision_persists_minimal_record (w : World) (d : DecisionType) :
  exists entry,
    decisionLog (execJS (recordDecision d) w) = decisionLog w ++ [entry] /\
    field_names entry = ["timestamp"; "decision_type"]%string /\
    get_field entry "timestamp" = Some (JIsoTime (nth_reading w 0)) /\
    get_field entry "decision_type" = Some (JString (decisionName d)) /\
    (decisionName d = "Proceed" \/ decisionName d = "Delay")%string /\
    (forall k, k <> "timestamp" -> k <> "decision_type" ->
               get_field entry k = None)%string.
Proof.
  exists (decisionEntry (nth_reading w 0) d).
  split; [apply recordDecision_log |].
  repeat split.
  - destruct d; [left | right]; reflexivity.
  - intros k Ht Hd. unfold decisionEntry, get_field.
    destruct (String.eqb_spec "timestamp" k) as [E | _]; [congruence |].
    destruct (String.eqb_spec "decision_type" k) as [E | _]; [congruence |].
    reflexivity.
Qed.

(** ** Sessions never switch the cooling period or the lock on *)

Lemma execJS_bind {A B} (a : JS A) (f : A -> JS B) (w : World) :
  execJS (bind a f) w = execJS (f (evalJS a w)) (execJS a w).
Proof.
  unfold execJS, evalJS. cbn. destruct (runState a w). reflexivity.
Qed.

Lemma checkBrakeScreen_keeps_cooling (w : World) :
  coolingPeriodActive (this (execJS checkBrakeScreen w)) =
  coolingPeriodActive (this w).
Proof. run_checkBrakeScreen. Qed.

Lemma perform_keeps_cooling (o : Op) (w : World) :
  coolingPeriodActive (this (execJS (perform o) w)) =
  coolingPeriodActive (this w).
Proof.
  destruct o; try reflexivity.
  - unfold perform. rewrite execJS_bind. apply checkBrakeScreen_keeps_cooling.
  - destruct d; reflexivity.
Qed.

Lemma perform_all_keeps_cooling (ops : list Op) (w : World) :
  coolingPeriodActive (this (execJS (perform_all ops) w)) =
  coolingPeriodActive (this w).
Proof.
  revert w. induction ops as [| o ops IH]; intros w.
  - reflexivity.
  - cbn [perform_all]. rewrite execJS_bind, IH. apply perform_keeps_cooling.
Qed.

Lemma new_client_not_cooling (clk : nat -> Z) (rnd : nat -> Q) (ls : LocalStorage) :
  coolingPeriodActive (this (new_client clk rnd ls)) = false.
Proof.
  unfold new_client, constructor, execState. cbn.
  destruct (omtobe_user_id ls) as [s |]; [destruct (truthy s) |]; cbn;
    destruct (omtobe_cycle_start ls); reflexivity.
Qed.

Lemma reachable_not_cooling (w : World) :
  reachable w -> coolingPeriodActive (this w) = false.
Proof.
  intros (clk & rnd & ls & ops & ->). unfold session.
  change (execState (perform_all ops) (new_client clk rnd ls))
    with (execJS (perform_all ops) (new_client clk rnd ls)).
  rewrite perform_all_keeps_cooling. apply new_client_not_cooling.
Qed.

(** C10: after any sequence of client operations on a freshly constructed
    client, [getState] reports [cooling_period_active = false] and
    [decision_locked = false]. *)
Theorem getState_never_cooling_nor_locked
    (clk : nat -> Z) (rnd : nat -> Q) (ls : LocalStorage) (ops : list Op) :
  let r := evalJS getState (session clk rnd ls ops) in
  StateBody.cooling_period_active (StateResponse.state r) = false /\
  StateBody.decision_locked (StateResponse.state r) = false.
Proof.
  intros r. subst r.
  destruct (getState_flags (session clk rnd ls ops)) as [Hc Hl].
  rewrite Hc, Hl. split; [| reflexivity].
  apply reachable_not_cooling. exists clk, rnd, ls, ops. reflexivity.
Qed.

(** ** Reflections *)

Lemma recordReflection_run (w : World) (r : ReflectionAnswer) :
  runState (recordReflection r) w =
  (ReflectionResponse.mk "reflection_recorded" (answerName r) (nth_reading w 0)
     (CycleReset.mk "cycle_reset_initiated" (nth_reading w 1) 1),
   mkWorld (clock w) (4 + clock_reads w) (random w) (random_draws w)
     (set_cycle_start (nth_reading w 2)
        (set_reflections
           (reflectionLog w ++ [reflectionEntry (nth_reading w 0) r])
           (localStorage w)))
     (with_cycleStartDate (nth_reading w 3) (this w))).
Proof. reflexivity. Qed.

Lemma dayOfCycle_first_day (start now : Z) :
  start <= now < start + MS_PER_DAY -> dayOfCycle start now = 1.
Proof.
  intros H. unfold dayOfCycle. cbv zeta.
  rewrite Z.div_small; [reflexivity | lia].
Qed.

(** C5: whatever the answer, recording a reflection appends one entry to the
    reflection log and resets the cycle: the cycle start becomes the current
    clock reading, so the day is 1 for the next 24 hours; the cooling period
    and the decision lock are off afterwards; the new client fields, the
    stored cycle start and the reported reset do not depend on the answer;
    and a trigger check on the new cycle's day 1 returns
    [should_display = false]. *)
Theorem recordReflection_resets_cycle (w : World) (r : ReflectionAnswer)
    (Hreach : reachable w) :
  let resp := evalJS (recordReflection r) w in
  let w' := execJS (recordReflection r) w in
  reflectionLog w' = reflectionLog w ++ [reflectionEntry (nth_reading w 0) r] /\
  cycleStart w' = nth_reading w 3 /\
  omtobe_cycle_start (localStorage w') = Some (nth_reading w 2) /\
  CycleReset.new_cycle_start (ReflectionResponse.cycle_reset resp) = nth_reading w 1 /\
  CycleReset.current_day (ReflectionResponse.cycle_reset resp) = 1 /\
  (forall now, cycleStart w' <= now < cycleStart w' + MS_PER_DAY ->
               dayOfCycle (cycleStart w') now = 1) /\
  coolingPeriodActive (this w') = false /\
  StateBody.cooling_period_active (StateResponse.state (evalJS getState w')) = false /\
  StateBody.decision_locked (StateResponse.state (evalJS getState w')) = false /\
  (forall r2,
     this (execJS (recordReflection r2) w) = this w' /\
     omtobe_cycle_start (localStorage (execJS (recordReflection r2) w)) =
       omtobe_cycle_start (localStorage w') /\
     ReflectionResponse.cycle_reset (evalJS (recordReflection r2) w) =
       ReflectionResponse.cycle_reset resp) /\
  (cycleStart w' <= nth_reading w' 1 < cycleStart w' + MS_PER_DAY ->
   StateCheckResponse.should_display (evalJS checkBrakeScreen w') = false).
Proof.
  intros resp w'.
  assert (Hcool : coolingPeriodActive (this w') = false).
  { subst w'. unfold execJS. rewrite recordReflection_run. cbn.
    apply reachable_not_cooling. exact Hreach. }
  assert (Hflags := getState_flags w'). destruct Hflags as [Hc Hl].
  split; [reflexivity |].
  split; [reflexivity |].
  split; [reflexivity |].
  split; [reflexivity |].
  split; [reflexivity |].
  split; [intros now Hnow; apply dayOfCycle_first_day; exact Hnow |].
  split; [exact Hcool |].
  split; [rewrite Hc; exact Hcool |].
  split; [exact Hl |].
  split; [intros r2; repeat split |].
  intros Hwin. rewrite checkBrakeScreen_should_display.
  unfold phaseDay. rewrite (dayOfCycle_first_day Hwin). reflexivity.
Qed.

Lemma recordReflection_resets_cycle_witness :
  let w := session (steady (6 * MS_PER_DAY)) (draws [] 0%Q)
                   (storage_started_at 0) [OpCheckBrakeScreen; OpGetState] in
  let w' := execJS (recordReflection Skip) w in
  reachable w /\
  cycleStart w' <= nth_reading w' 1 < cycleStart w' + MS_PER_DAY /\
  StateCheckResponse.should_display (evalJS checkBrakeScreen w') = false.
Proof.
  intros w w'.
  assert (Hreach : reachable w).
  { exists (steady (6 * MS_PER_DAY)), (draws [] 0%Q), (storage_started_at 0),
           [OpCheckBrakeScreen; OpGetState]. reflexivity. }
  assert (Hwin : cycleStart w' <= nth_reading w' 1 < cycleStart w' + MS_PER_DAY).
  { vm_compute. split; [discriminate | reflexivity]. }
  split; [exact Hreach |].
  split; [exact Hwin |].
  apply (@recordReflection_resets_cycle w Skip Hreach). exact Hwin.
Defined.

(** * Further properties of the client, the demo context and the App *)

(** ** The cycle as a function of elapsed time *)

Lemma dayOfCycle_as_mod (start now : Z) :
  start <= now ->
  dayOfCycle start now = ((now - start) mod (7 * MS_PER_DAY)) / MS_PER_DAY + 1.
Proof.
  intros H. rewrite dayOfCycle_nonneg by exact H.
  f_equal.
  assert (HD : 0 < MS_PER_DAY) by (rewrite MS_PER_DAY_value; lia).
  set (x := now - start).
  rewrite (Z.mul_comm 7 MS_PER_DAY).
  rewrite Z.rem_mul_r by lia.
  replace (x mod MS_PER_DAY + MS_PER_DAY * ((x / MS_PER_DAY) mod 7))
    with (x mod MS_PER_DAY + ((x / MS_PER_DAY) mod 7) * MS_PER_DAY) by lia.
  rewrite Z.div_add by lia.
  rewrite (Z.div_small (x mod MS_PER_DAY)) by (apply Z.mod_pos_bound; lia).
  reflexivity.
Qed.

(** Without any reset the cycle repeats: seven days later the day is the same,
    and one day later it is the next day, day 7 being followed by day 1. *)
Theorem dayOfCycle_weekly (start now : Z) (Hnow : start <= now) :
  dayOfCycle start (now + 7 * MS_PER_DAY) = dayOfCycle start now /\
  dayOfCycle start (now + MS_PER_DAY) = dayOfCycle start now mod 7 + 1.
Proof.
  assert (HD : 0 < MS_PER_DAY) by (rewrite MS_PER_DAY_value; lia).
  rewrite !dayOfCycle_nonneg by lia.
  split.
  - replace (now + 7 * MS_PER_DAY - start) with (now - start + 7 * MS_PER_DAY) by lia.
    rewrite Z.div_add by lia.
    replace ((now - start) / MS_PER_DAY + 7)
      with ((now - start) / MS_PER_DAY + 1 * 7) by lia.
    rewrite Z.mod_add by lia. reflexivity.
  - replace (now + MS_PER_DAY - start) with (now - start + 1 * MS_PER_DAY) by lia.
    rewrite Z.div_add by lia.
    rewrite Z.add_mod_idemp_l by lia. reflexivity.
Qed.

Lemma dayOfCycle_weekly_witness :
  0 <= 6 * MS_PER_DAY /\
  dayOfCycle 0 (6 * MS_PER_DAY + MS_PER_DAY) = dayOfCycle 0 (6 * MS_PER_DAY) mod 7 + 1.
Proof.
  split; [vm_compute; discriminate |].
  apply (@dayOfCycle_weekly 0 (6 * MS_PER_DAY)). vm_compute; discriminate.
Defined.

Lemma phaseOfDay_cases (day : Z) :
  (phaseOfDay day = "TOTAL_SILENCE"%string <-> day <= 2) /\
  (phaseOfDay day = "INTERVENTION_LOGIC"%string <-> 3 <= day <= 5) /\
  (phaseOfDay day = "REFLECTION"%string <-> 6 <= day).
Proof.
  unfold phaseOfDay.
  destruct (Z.leb_spec day 2); [| destruct (Z.leb_spec day 5)];
    repeat split; intros; try discriminate; try lia; reflexivity.
Qed.

(** The phase in terms of the time elapsed in the current week of the cycle:
    silence during the first two days, intervention from the start of the
    third day to the end of the fifth, and the reflection phase for the two
    days that remain (days 6 and 7 alike). *)
Theorem phase_by_elapsed_time (start now : Z) (Hnow : start <= now) :
  let elapsed := (now - start) mod (7 * MS_PER_DAY) in
  let phase := phaseOfDay (dayOfCycle start now) in
  (phase = "TOTAL_SILENCE"%string <-> elapsed < 2 * MS_PER_DAY) /\
  (phase = "INTERVENTION_LOGIC"%string <->
     2 * MS_PER_DAY <= elapsed < 5 * MS_PER_DAY) /\
  (phase = "REFLECTION"%string <-> 5 * MS_PER_DAY <= elapsed).
Proof.
  intros elapsed phase. subst phase.
  destruct (phaseOfDay_cases (dayOfCycle start now)) as (Hs & Hi & Hr).
  rewrite Hs, Hi, Hr. rewrite dayOfCycle_as_mod by exact Hnow.
  fold elapsed.
  assert (HD : 0 < MS_PER_DAY) by (rewrite MS_PER_DAY_value; lia).
  assert (He : 0 <= elapsed < 7 * MS_PER_DAY) by (apply Z.mod_pos_bound; lia).
  pose proof (Z.div_mod elapsed MS_PER_DAY ltac:(lia)) as Hdm.
  pose proof (Z.mod_pos_bound elapsed MS_PER_DAY HD) as Hm.
  set (q := elapsed / MS_PER_DAY) in *. set (r := elapsed mod MS_PER_DAY) in *.
  repeat split; intros; nia.
Qed.

Lemma phase_by_elapsed_time_witness :
  0 <= 9 * MS_PER_DAY + 5 /\
  phaseOfDay (dayOfCycle 0 (9 * MS_PER_DAY + 5)) = "INTERVENTION_LOGIC"%string.
Proof.
  split; [vm_compute; discriminate |].
  apply (@phase_by_elapsed_time 0 (9 * MS_PER_DAY + 5)).
  - vm_compute; discriminate.
  - vm_compute. split; [discriminate | reflexivity].
Defined.

Lemma dayOfCycle_first_two_days (start now : Z) :
  now < start + 2 * MS_PER_DAY -> dayOfCycle start now <= 2.
Proof.
  intros H. destruct (Z.lt_ge_cases now start) as [Hb | Hge].
  - pose proof (dayOfCycle_behind Hb). lia.
  - rewrite dayOfCycle_as_mod by exact Hge.
    assert (HD : 0 < MS_PER_DAY) by (rewrite MS_PER_DAY_value; lia).
    rewrite Z.mod_small by lia.
    assert ((now - start) / MS_PER_DAY < 2)
      by (apply Z.div_lt_upper_bound; lia).
    lia.
Qed.

(** With the clock behind the cycle start the client stays silent: the phase
    it reports is the silence phase and the check does not display, whatever
    is drawn. *)
Theorem clock_behind_is_silent (w : World)
    (Hskew : nth_reading w 1 < cycleStart w) :
  StateCheckResponse.phase (evalJS checkBrakeScreen w) = "TOTAL_SILENCE"%string /\
  StateCheckResponse.should_display (evalJS checkBrakeScreen w) = false /\
  StateBody.phase (StateResponse.state (evalJS getState w)) = "TOTAL_SILENCE"%string.
Proof.
  assert (Hday : phaseDay w <= 1).
  { unfold phaseDay. pose proof (dayOfCycle_behind Hskew). lia. }
  assert (Hphase : phaseOfDay (phaseDay w) = "TOTAL_SILENCE"%string).
  { apply phaseOfDay_cases. lia. }
  split; [rewrite checkBrakeScreen_phase; exact Hphase |].
  split.
  - rewrite checkBrakeScreen_should_display, Hphase. reflexivity.
  - exact Hphase.
Qed.

Lemma clock_behind_is_silent_witness :
  nth_reading skewed_world 1 < cycleStart skewed_world /\
  StateCheckResponse.should_display (evalJS checkBrakeScreen skewed_world) = false.
Proof.
  split; [reflexivity |].
  apply (@clock_behind_is_silent skewed_world). reflexivity.
Defined.

(** ** What the methods change, and what they leave alone *)

(** Same case analysis as [run_checkBrakeScreen], for goals that need a last
    arithmetic step. *)
Ltac split_checkBrakeScreen :=
  unfold evalJS, execJS, checkBrakeScreen, phaseDay, nth_draw, nth_reading,
    cycleStart;
  cbn;
  destruct (String.eqb _ "INTERVENTION_LOGIC"); cbn;
  [ destruct (Qltb _ double_0_3); cbn | ].

Lemma checkBrakeScreen_frame (w : World) :
  localStorage (execJS checkBrakeScreen w) = localStorage w /\
  clock (execJS checkBrakeScreen w) = clock w /\
  (clock_reads w <= clock_reads (execJS checkBrakeScreen w))%nat /\
  userId (this (execJS checkBrakeScreen w)) = userId (this w) /\
  cycleStart (execJS checkBrakeScreen w) = cycleStart w.
Proof.
  repeat split; try run_checkBrakeScreen; split_checkBrakeScreen; lia.
Qed.

(** A check writes nothing to storage and touches one field only: when, and
    only when, it decides to display, [lastBrakeTime] becomes the reading of
    [Date.now()] (the third clock reading of the call). *)
Theorem checkBrakeScreen_effects (w : World) :
  let r := evalJS checkBrakeScreen w in
  let w' := execJS checkBrakeScreen w in
  localStorage w' = localStorage w /\
  userId (this w') = userId (this w) /\
  cycleStartDate (this w') = cycleStartDate (this w) /\
  coolingPeriodActive (this w') = coolingPeriodActive (this w) /\
  lastBrakeTime (this w') =
    (if StateCheckResponse.should_display r
     then nth_reading w 2
     else lastBrakeTime (this w)).
Proof.
  intros r w'. subst r w'.
  repeat split; run_checkBrakeScreen.
Qed.

Lemma perform_read_only (o : Op) (w : World) :
  read_only o = true ->
  this (execJS (perform o) w) = this w /\
  localStorage (execJS (perform o) w) = localStorage w /\
  random_draws (execJS (perform o) w) = random_draws w.
Proof.
  destruct o; cbn [read_only]; intros H; try discriminate; repeat split.
Qed.

(** The reading operations ([getUserId], [healthCheck], [getState] and the two
    history getters), in any number and order, change neither the client's
    fields nor the storage, and draw no random number. *)
Theorem read_only_session (ops : list Op) (w : World)
    (Hro : forallb read_only ops = true) :
  this (execJS (perform_all ops) w) = this w /\
  localStorage (execJS (perform_all ops) w) = localStorage w /\
  random_draws (execJS (perform_all ops) w) = random_draws w.
Proof.
  revert w. induction ops as [| o ops IH]; intros w.
  - repeat split.
  - cbn [forallb] in Hro. apply andb_prop in Hro. destruct Hro as [Ho Hops].
    cbn [perform_all]. rewrite execJS_bind.
    destruct (IH Hops (execJS (perform o) w)) as (H1 & H2 & H3).
    destruct (perform_read_only o w Ho) as (P1 & P2 & P3).
    rewrite H1, H2, H3. auto.
Qed.

Lemma read_only_session_witness :
  let w := day4_world (draws [] 0%Q) in
  let ops := [OpGetState; OpGetDecisionHistory 10; OpGetUserId; OpHealthCheck;
              OpGetReflectionHistory 0] in
  forallb read_only ops = true /\
  this (execJS (perform_all ops) w) = this w.
Proof.
  split; [reflexivity |].
  apply (@read_only_session
           [OpGetState; OpGetDecisionHistory 10; OpGetUserId; OpHealthCheck;
            OpGetReflectionHistory 0]
           (day4_world (draws [] 0%Q))).
  reflexivity.
Defined.

(** ** The history getters *)

Lemma slice_last (limit : Z) (a : list JsObject) :
  0 < limit ->
  Z.of_nat (List.length (slice_from_neg limit a)) =
    Z.min limit (Z.of_nat (List.length a)) /\
  exists older, a = older ++ slice_from_neg limit a.
Proof.
  intros Hpos. unfold slice_from_neg. cbv zeta.
  destruct (Z.ltb_spec (- limit) 0) as [_ | Hge]; [| lia].
  split.
  - rewrite length_skipn. lia.
  - eexists. symmetry. apply firstn_skipn.
Qed.

(** With a positive limit the history getters return the most recent entries:
    a suffix of the stored log, of length min(limit, size of the log);
    [total] is the size of the whole log. *)
Theorem history_returns_latest (w : World) (limit : Z) (Hpos : 0 < limit) :
  let d := evalJS (getDecisionHistory limit) w in
  let r := evalJS (getReflectionHistory limit) w in
  (History.total d = Z.of_nat (List.length (decisionLog w)) /\
   Z.of_nat (List.length (History.entries d)) =
     Z.min limit (Z.of_nat (List.length (decisionLog w))) /\
   exists older, decisionLog w = older ++ History.entries d) /\
  (History.total r = Z.of_nat (List.length (reflectionLog w)) /\
   Z.of_nat (List.length (History.entries r)) =
     Z.min limit (Z.of_nat (List.length (reflectionLog w))) /\
   exists older, reflectionLog w = older ++ History.entries r).
Proof.
  intros d r. subst d r. unfold evalJS. cbn.
  fold (decisionLog w). fold (reflectionLog w).
  destruct (slice_last (decisionLog w) Hpos) as [Hd1 Hd2].
  destruct (slice_last (reflectionLog w) Hpos) as [Hr1 Hr2].
  auto.
Qed.

Lemma history_returns_latest_witness :
  let w := execJS (perform_all [OpRecordDecision Delay; OpRecordDecision Proceed;
                                OpRecordDecision Delay])
                  (day4_world (draws [] 0%Q)) in
  0 < 2 /\
  Z.of_nat (List.length (History.entries (evalJS (getDecisionHistory 2) w))) =
    Z.min 2 (Z.of_nat (List.length (decisionLog w))).
Proof.
  intros w. split; [reflexivity |].
  apply (@history_returns_latest w 2). reflexivity.
Defined.

(** With a limit of zero or below nothing is cut from the end: [slice(-limit)]
    then counts from the front, so limit 0 returns the whole log and limit
    [-k] the log without its [k] oldest entries. *)
Theorem history_nonpositive_limit (w : World) (limit : Z) (Hle : limit <= 0) :
  History.entries (evalJS (getDecisionHistory limit) w) =
    skipn (Z.to_nat (- limit)) (decisionLog w) /\
  History.entries (evalJS (getReflectionHistory limit) w) =
    skipn (Z.to_nat (- limit)) (reflectionLog w) /\
  (limit = 0 ->
   History.entries (evalJS (getDecisionHistory limit) w) = decisionLog w /\
   History.entries (evalJS (getReflectionHistory limit) w) = reflectionLog w).
Proof.
  assert (Hslice : forall a : list JsObject,
            slice_from_neg limit a = skipn (Z.to_nat (- limit)) a).
  { intros a. unfold slice_from_neg. cbv zeta.
    destruct (Z.ltb_spec (- limit) 0) as [Hlt | _]; [lia |].
    destruct (Z.le_gt_cases (- limit) (Z.of_nat (List.length a))) as [Hin | Hout].
    - rewrite Z.min_l by exact Hin. reflexivity.
    - rewrite Z.min_r by lia. rewrite Nat2Z.id, skipn_all.
      symmetry. apply skipn_all2. lia. }
  unfold evalJS. cbn. fold (decisionLog w). fold (reflectionLog w).
  rewrite !Hslice.
  split; [reflexivity |]. split; [reflexivity |].
  intros ->. split; reflexivity.
Qed.

Lemma history_nonpositive_limit_witness :
  let w := execJS (perform_all [OpRecordDecision Delay; OpRecordDecision Proceed])
                  (day4_world (draws [] 0%Q)) in
  0 <= 0 /\
  History.entries (evalJS (getDecisionHistory 0) w) = decisionLog w.
Proof.
  intros w. split; [lia |].
  apply (@history_nonpositive_limit w 0); [lia | reflexivity].
Defined.

(** A decision just recorded is what a history of limit 1 returns, and the
    total has grown by one. *)
Theorem recordDecision_then_history (w : World) (d : DecisionType) :
  let w' := execJS (recordDecision d) w in
  History.entries (evalJS (getDecisionHistory 1) w') =
    [decisionEntry (nth_reading w 0) d] /\
  History.total (evalJS (getDecisionHistory 1) w') =
    History.total (evalJS (getDecisionHistory 1) w) + 1.
Proof.
  intros w'. subst w'. unfold evalJS at 1 2 3. cbn [fst].
  change (History.entries (fst (runState (getDecisionHistory 1)
                                  (execJS (recordDecision d) w))))
    with (slice_from_neg 1 (decisionLog (execJS (recordDecision d) w))).
  change (History.total (fst (runState (getDecisionHistory 1)
                                (execJS (recordDecision d) w))))
    with (Z.of_nat (List.length (decisionLog (execJS (recordDecision d) w)))).
  change (History.total (fst (runState (getDecisionHistory 1) w)))
    with (Z.of_nat (List.length (decisionLog w))).
  rewrite recordDecision_log.
  split.
  - unfold slice_from_neg. cbv zeta. rewrite length_app. cbn [List.length].
    change (- (1) <? 0) with true. cbv iota.
    replace (Z.to_nat (Z.max (Z.of_nat (List.length (decisionLog w) + 1) + - (1)) 0))
      with (List.length (decisionLog w)) by lia.
    rewrite skipn_app, skipn_all, Nat.sub_diag. reflexivity.
  - rewrite length_app. cbn [List.length]. lia.
Qed.

(** ** The logs over a whole session *)

Lemma execJS_seq {A B} (a : JS A) (b : JS B) (w : World) :
  execJS (bind a (fun _ => b)) w = execJS b (execJS a w).
Proof.
  unfold execJS. cbn. destruct (runState a w). reflexivity.
Qed.

Lemma execJS_ret {A} (x : A) (w : World) : execJS (ret x) w = w.
Proof. reflexivity. Qed.

Lemma perform_logs (o : Op) (w : World) :
  decisionLog (execJS (perform o) w) = decisionLog w ++ new_decisions o w /\
  reflectionLog (execJS (perform o) w) = reflectionLog w ++ new_reflections o w /\
  clock (execJS (perform o) w) = clock w /\
  (clock_reads w <= clock_reads (execJS (perform o) w))%nat.
Proof.
  destruct o; cbn [new_decisions new_reflections]; rewrite ?app_nil_r;
    try (repeat split; cbn; lia).
  - unfold perform. rewrite execJS_seq, execJS_ret.
    destruct (checkBrakeScreen_frame w) as (Hls & Hclk & Hreads & _).
    unfold decisionLog, reflectionLog. rewrite Hls. auto.
  - destruct d; repeat split; cbn; lia.
Qed.

Lemma decisionEntry_fields (t : Z) (d : DecisionType) :
  field_names (decisionEntry t d) = ["timestamp"; "decision_type"]%string /\
  get_field (decisionEntry t d) "decision_type" = Some (JString (decisionName d)) /\
  entry_time (decisionEntry t d) = Some t.
Proof. repeat split. Qed.

Lemma reflectionEntry_fields (t : Z) (r : ReflectionAnswer) :
  field_names (reflectionEntry t r) = ["timestamp"; "response"]%string /\
  get_field (reflectionEntry t r) "response" = Some (JString (answerName r)) /\
  entry_time (reflectionEntry t r) = Some t.
Proof. repeat split. Qed.

(** Over any sequence of operations both logs only grow at the end, and they
    grow by exactly what was submitted, in order: one two-field entry per
    recorded decision carrying its type, one per recorded reflection carrying
    its answer.  No operation rewrites or removes an entry. *)
Theorem session_logs_append_only (ops : list Op) (w : World) :
  let w' := execJS (perform_all ops) w in
  (exists added,
     decisionLog w' = decisionLog w ++ added /\
     map (fun e => get_field e "decision_type") added =
       map (fun d => Some (JString (decisionName d))) (decisions_of ops) /\
     Forall (fun e => field_names e = ["timestamp"; "decision_type"]%string) added) /\
  (exists added,
     reflectionLog w' = reflectionLog w ++ added /\
     map (fun e => get_field e "response") added =
       map (fun r => Some (JString (answerName r))) (reflections_of ops) /\
     Forall (fun e => field_names e = ["timestamp"; "response"]%string) added).
Proof.
  cbv zeta. revert w. induction ops as [| o ops IH]; intros w.
  - split; exists []; rewrite app_nil_r; repeat split; constructor.
  - cbn [perform_all]. rewrite execJS_seq.
    set (w1 := execJS (perform o) w).
    destruct (IH w1) as [(ad & Hd & Hdt & Hdf) (ar & Hr & Hrt & Hrf)].
    destruct (perform_logs o w) as (Pd & Pr & _ & _). fold w1 in Pd, Pr.
    split.
    + exists (new_decisions o w ++ ad).
      rewrite Hd, Pd, <- app_assoc. split; [reflexivity |].
      destruct o; cbn [new_decisions decisions_of app map]; auto.
      split; [rewrite Hdt; reflexivity |].
      constructor; [reflexivity | exact Hdf].
    + exists (new_reflections o w ++ ar).
      rewrite Hr, Pr, <- app_assoc. split; [reflexivity |].
      destruct o; cbn [new_reflections reflections_of app map]; auto.
      split; [rewrite Hrt; reflexivity |].
      constructor; [reflexivity | exact Hrf].
Qed.

Lemma log_times_app (l1 l2 : list JsObject) :
  log_times (l1 ++ l2) = log_times l1 ++ log_times l2.
Proof.
  induction l1 as [| e l1 IH]; [reflexivity |].
  cbn [app log_times]. destruct (entry_time e); rewrite IH; reflexivity.
Qed.

Lemma StronglySorted_snoc (l : list Z) (x : Z) :
  StronglySorted Z.le l -> Forall (fun t => t <= x) l ->
  StronglySorted Z.le (l ++ [x]).
Proof.
  induction l as [| a l IH]; intros Hs Hf; cbn [app].
  - constructor; constructor.
  - inversion Hs as [| a' l' Hs' Ha]; subst.
    inversion Hf as [| a' l' Hax Hf']; subst.
    constructor; [apply IH; assumption |].
    apply Forall_app. split; [exact Ha |]. constructor; [exact Hax | constructor].
Qed.

Lemma log_in_order_step (clk : nat -> Z) (o : Op) (w : World) :
  monotone clk ->
  log_in_order clk w (decisionLog w) /\ log_in_order clk w (reflectionLog w) ->
  log_in_order clk (execJS (perform o) w) (decisionLog (execJS (perform o) w)) /\
  log_in_order clk (execJS (perform o) w) (reflectionLog (execJS (perform o) w)).
Proof.
  intros Hmono [(Hc & Hsd & Hfd) (_ & Hsr & Hfr)].
  destruct (perform_logs o w) as (Pd & Pr & Pc & Preads).
  assert (Hle : clk (clock_reads w) <= clk (clock_reads (execJS (perform o) w)))
    by (apply Hmono; exact Preads).
  assert (Hgrow : forall l, Forall (fun t => t <= clk (clock_reads w)) l ->
            Forall (fun t => t <= clk (clock_reads (execJS (perform o) w))) l).
  { intros l Hl. eapply Forall_impl; [| exact Hl]. cbn. intros; lia. }
  unfold log_in_order. rewrite Pd, Pr, Pc, !log_times_app.
  destruct o; cbn [new_decisions new_reflections log_times]; rewrite ?app_nil_r;
    try (repeat split; auto; fail).
  - rewrite (proj2 (proj2 (decisionEntry_fields (nth_reading w 0) d))).
    unfold nth_reading. cbn [Nat.add]. rewrite Hc.
    repeat split; auto.
    + apply StronglySorted_snoc; assumption.
    + apply Forall_app. split; [auto |]. constructor; [exact Hle | constructor].
  - rewrite (proj2 (proj2 (reflectionEntry_fields (nth_reading w 0) r))).
    unfold nth_reading. cbn [Nat.add]. rewrite Hc.
    repeat split; auto.
    + apply StronglySorted_snoc; assumption.
    + apply Forall_app. split; [auto |]. constructor; [exact Hle | constructor].
Qed.

Lemma new_client_clock (clk : nat -> Z) (rnd : nat -> Q) (ls : LocalStorage) :
  clock (new_client clk rnd ls) = clk /\
  localStorage (new_client clk rnd ls) = ls.
Proof.
  unfold new_client, constructor, execState. cbn.
  destruct (omtobe_user_id ls) as [s |]; [destruct (truthy s) |]; cbn;
    destruct (omtobe_cycle_start ls); split; reflexivity.
Qed.

(** If the clock never goes back, then in a session that starts with empty
    logs the timestamps of the decision log and of the reflection log are
    always in non-decreasing order. *)
Theorem session_logs_chronological
    (clk : nat -> Z) (rnd : nat -> Q) (ls : LocalStorage) (ops : list Op)
    (Hmono : monotone clk)
    (Hnodec : omtobe_decisions ls = None)
    (Hnoref : omtobe_reflections ls = None) :
  StronglySorted Z.le (log_times (decisionLog (session clk rnd ls ops))) /\
  StronglySorted Z.le (log_times (reflectionLog (session clk rnd ls ops))).
Proof.
  unfold session.
  change (execState (perform_all ops) (new_client clk rnd ls))
    with (execJS (perform_all ops) (new_client clk rnd ls)).
  assert (Hstart : log_in_order clk (new_client clk rnd ls)
                     (decisionLog (new_client clk rnd ls)) /\
                   log_in_order clk (new_client clk rnd ls)
                     (reflectionLog (new_client clk rnd ls))).
  { destruct (new_client_clock clk rnd ls) as [Hc Hls].
    unfold log_in_order, decisionLog, reflectionLog.
    rewrite Hc, Hls, Hnodec, Hnoref. cbn.
    repeat split; constructor. }
  revert Hstart. generalize (new_client clk rnd ls).
  induction ops as [| o ops IH]; intros w Hw.
  - destruct Hw as [(_ & Hd & _) (_ & Hr & _)]. split; assumption.
  - cbn [perform_all]. rewrite execJS_seq.
    apply IH. apply log_in_order_step; assumption.
Qed.

Lemma ticking_monotone (t0 step : Z) : 0 <= step -> monotone (ticking t0 step).
Proof. intros H i j Hij. unfold ticking. nia. Qed.

Lemma session_logs_chronological_witness :
  let clk := ticking 1700000000000 250 in
  let ops := [OpRecordDecision Delay; OpCheckBrakeScreen; OpRecordDecision Proceed;
              OpRecordReflection Yes; OpRecordDecision Delay] in
  monotone clk /\
  StronglySorted Z.le
    (log_times (decisionLog (session clk (draws [] 0%Q) emptyStorage ops))).
Proof.
  intros clk ops.
  assert (Hm : monotone clk) by (apply ticking_monotone; lia).
  split; [exact Hm |].
  apply (@session_logs_chronological clk (draws [] 0%Q) emptyStorage ops Hm);
    reflexivity.
Defined.

(** ** Signing up, reloading, and where the cycle start lives *)

Lemma createUser_run (w : World) (uid email timezone : string) :
  runState (createUser uid email timezone) w =
  (UserCreated.mk "user_created" uid email timezone (nth_reading w 2),
   mkWorld (clock w) (3 + clock_reads w) (random w) (random_draws w)
     (set_cycle_start (nth_reading w 0) (set_user_id uid (localStorage w)))
     (with_cycleStartDate (nth_reading w 1) (with_userId (Some uid) (this w)))).
Proof. reflexivity. Qed.

Lemma silent_first_two_days (w : World) :
  nth_reading w 1 < cycleStart w + 2 * MS_PER_DAY ->
  StateCheckResponse.should_display (evalJS checkBrakeScreen w) = false.
Proof.
  intros H. rewrite checkBrakeScreen_should_display.
  rewrite phaseOfDay_not_intervention; [reflexivity |].
  unfold phaseDay. pose proof (@dayOfCycle_first_two_days _ _ H). lia.
Qed.

(** [createUser] starts a new cycle for the given user: the id is kept in the
    client and in storage, the cycle start is stored and set from the clock,
    both logs are kept as they are, and no check displays until two days
    after the new start. *)
Theorem createUser_starts_cycle (w : World) (uid email timezone : string) :
  let r := evalJS (createUser uid email timezone) w in
  let w' := execJS (createUser uid email timezone) w in
  UserCreated.user_id r = uid /\
  evalJS getUserId w' = Some uid /\
  omtobe_user_id (localStorage w') = Some uid /\
  omtobe_cycle_start (localStorage w') = Some (nth_reading w 0) /\
  cycleStart w' = nth_reading w 1 /\
  decisionLog w' = decisionLog w /\
  reflectionLog w' = reflectionLog w /\
  (nth_reading w' 1 < cycleStart w' + 2 * MS_PER_DAY ->
   StateCheckResponse.should_display (evalJS checkBrakeScreen w') = false).
Proof.
  intros r w'. subst r w'. unfold evalJS at 1, execJS.
  rewrite createUser_run. cbn [fst snd].
  repeat split.
  apply silent_first_two_days.
Qed.

Lemma createUser_starts_cycle_witness :
  let w := day4_world (draws [] 0%Q) in
  let w' := execJS (createUser "ada" "ada@example.com" "UTC") w in
  nth_reading w' 1 < cycleStart w' + 2 * MS_PER_DAY /\
  StateCheckResponse.should_display (evalJS checkBrakeScreen w) = true /\
  StateCheckResponse.should_display (evalJS checkBrakeScreen w') = false.
Proof.
  intros w w'.
  assert (H : nth_reading w' 1 < cycleStart w' + 2 * MS_PER_DAY) by reflexivity.
  split; [exact H |]. split; [reflexivity |].
  apply (@createUser_starts_cycle w "ada" "ada@example.com" "UTC"). exact H.
Defined.

Lemma new_client_from_storage (clk : nat -> Z) (rnd : nat -> Q)
    (ls : LocalStorage) (t : Z) :
  omtobe_cycle_start ls = Some t ->
  cycleStart (new_client clk rnd ls) = t /\
  clock_reads (new_client clk rnd ls) = 0%nat /\
  userId (this (new_client clk rnd ls)) =
    match omtobe_user_id ls with
    | Some s => if truthy s then Some s else None
    | None => None
    end.
Proof.
  intros Ht. unfold new_client, constructor, execState, cycleStart. cbn.
  destruct (omtobe_user_id ls) as [s |]; [destruct (truthy s) |]; cbn;
    rewrite Ht; repeat split.
Qed.

(** Reloading the page after a reflection or a sign-up: the new client takes
    the cycle start from storage without reading the clock.  That stored value
    is the clock reading taken just before the one the live client kept, so the
    two clients agree whenever the clock did not move between those two
    readings; and a non-empty user id survives the reload. *)
Theorem reload_restores_cycle (w : World) (clk : nat -> Z) (rnd : nat -> Q) :
  (forall r,
     let live := execJS (recordReflection r) w in
     let reloaded := new_client clk rnd (localStorage live) in
     cycleStart reloaded = nth_reading w 2 /\
     cycleStart live = nth_reading w 3 /\
     clock_reads reloaded = 0%nat /\
     (nth_reading w 2 = nth_reading w 3 -> cycleStart reloaded = cycleStart live)) /\
  (forall uid email timezone,
     let live := execJS (createUser uid email timezone) w in
     let reloaded := new_client clk rnd (localStorage live) in
     cycleStart reloaded = nth_reading w 0 /\
     cycleStart live = nth_reading w 1 /\
     clock_reads reloaded = 0%nat /\
     userId (this reloaded) = (if truthy uid then Some uid else None) /\
     (nth_reading w 0 = nth_reading w 1 -> cycleStart reloaded = cycleStart live)).
Proof.
  split.
  - intros r live reloaded. subst live reloaded. unfold execJS.
    rewrite recordReflection_run. cbn [snd localStorage].
    destruct (@new_client_from_storage clk rnd
                (set_cycle_start (nth_reading w 2)
                   (set_reflections
                      (reflectionLog w ++ [reflectionEntry (nth_reading w 0) r])
                      (localStorage w)))
                (nth_reading w 2) eq_refl) as (H1 & H2 & _).
    rewrite H1, H2. repeat split. intros E. exact E.
  - intros uid email timezone live reloaded. subst live reloaded. unfold execJS.
    rewrite createUser_run. cbn [snd localStorage].
    destruct (@new_client_from_storage clk rnd
                (set_cycle_start (nth_reading w 0) (set_user_id uid (localStorage w)))
                (nth_reading w 0) eq_refl) as (H1 & H2 & H3).
    rewrite H1, H2, H3. repeat split. intros E. exact E.
Qed.

Lemma perform_keeps_cycle (o : Op) (w : World) :
  resets_cycle o = false ->
  omtobe_cycle_start (localStorage (execJS (perform o) w)) =
    omtobe_cycle_start (localStorage w) /\
  cycleStart (execJS (perform o) w) = cycleStart w.
Proof.
  destruct o; cbn [resets_cycle]; intros H; try discriminate;
    try (split; reflexivity).
  - unfold perform. rewrite execJS_seq, execJS_ret.
    destruct (checkBrakeScreen_frame w) as (Hls & _ & _ & _ & Hcs).
    rewrite Hls, Hcs. split; reflexivity.
  - destruct d; split; reflexivity.
Qed.

Lemma perform_all_keeps_cycle (ops : list Op) (w : World) :
  forallb (fun o => negb (resets_cycle o)) ops = true ->
  omtobe_cycle_start (localStorage (execJS (perform_all ops) w)) =
    omtobe_cycle_start (localStorage w) /\
  cycleStart (execJS (perform_all ops) w) = cycleStart w.
Proof.
  revert w. induction ops as [| o ops IH]; intros w Hops.
  - split; reflexivity.
  - cbn [forallb] in Hops. apply andb_prop in Hops. destruct Hops as [Ho Hops].
    apply negb_true_iff in Ho.
    cbn [perform_all]. rewrite execJS_seq.
    destruct (IH (execJS (perform o) w) Hops) as [H1 H2].
    destruct (perform_keeps_cycle o w Ho) as [P1 P2].
    rewrite H1, H2. auto.
Qed.

(** Only [setUserId], [createUser] and [recordReflection] move or store the
    cycle start.  A client constructed on storage without a cycle start keeps
    its start in memory only: after any amount of polling, decisions and
    history reads the storage still has none, so a reload at any instant
    begins a new cycle on day 1. *)
Theorem cycle_start_not_persisted_by_use
    (clk : nat -> Z) (rnd : nat -> Q) (ls : LocalStorage) (ops : list Op)
    (Hnone : omtobe_cycle_start ls = None)
    (Hops : forallb (fun o => negb (resets_cycle o)) ops = true) :
  let w := session clk rnd ls ops in
  cycleStart w = clk 0%nat /\
  omtobe_cycle_start (localStorage w) = None /\
  (forall T rnd',
     evalJS getCurrentDay (new_client (steady T) rnd' (localStorage w)) = 1).
Proof.
  intros w. subst w. unfold session.
  change (execState (perform_all ops) (new_client clk rnd ls))
    with (execJS (perform_all ops) (new_client clk rnd ls)).
  destruct (perform_all_keeps_cycle ops (new_client clk rnd ls) Hops) as [Hs Hc].
  destruct (new_client_clock clk rnd ls) as [_ Hls].
  assert (Hstored : omtobe_cycle_start
                      (localStorage (execJS (perform_all ops) (new_client clk rnd ls)))
                    = None)
    by (rewrite Hs, Hls; exact Hnone).
  split; [| split].
  - rewrite Hc. unfold new_client, constructor, execState, cycleStart. cbn.
    destruct (omtobe_user_id ls) as [s |]; [destruct (truthy s) |]; cbn;
      rewrite Hnone; reflexivity.
  - exact Hstored.
  - intros T rnd'.
    set (ls' := localStorage (execJS (perform_all ops) (new_client clk rnd ls))) in *.
    unfold evalJS. rewrite getCurrentDay_run. cbn [fst].
    unfold new_client, constructor, execState, cycleStart, nth_reading. cbn.
    destruct (omtobe_user_id ls') as [s |]; [destruct (truthy s) |]; cbn;
      rewrite Hstored; cbn; unfold steady, dayOfCycle; rewrite Z.sub_diag;
      reflexivity.
Qed.

Lemma cycle_start_not_persisted_by_use_witness :
  let ls := mkLocalStorage (Some "guest"%string) None None None in
  let ops := [OpGetState; OpCheckBrakeScreen; OpRecordDecision Delay;
              OpGetDecisionHistory 100] in
  let w := session (ticking 0 43200000) (draws [] 0%Q) ls ops in
  omtobe_cycle_start ls = None /\
  forallb (fun o => negb (resets_cycle o)) ops = true /\
  evalJS getCurrentDay w = 6 /\
  evalJS getCurrentDay
    (new_client (steady (nth_reading w 0)) (draws [] 0%Q) (localStorage w)) = 1.
Proof.
  intros ls ops w.
  split; [reflexivity |]. split; [reflexivity |]. split; [reflexivity |].
  apply (@cycle_start_not_persisted_by_use
           (ticking 0 43200000) (draws [] 0%Q) ls ops eq_refl eq_refl).
Defined.

(** ** The demo context *)

Lemma firstn_Forall {A} (P : A -> Prop) (n : nat) (l : list A) :
  Forall P l -> Forall P (firstn n l).
Proof.
  revert n. induction l as [| a l IH]; intros [| n] H; cbn; try constructor.
  - inversion H; assumption.
  - apply IH. inversion H; assumption.
Qed.

Lemma demo_step_ok (s : Demo.DemoState) (o : Demo.DemoOp) :
  demo_ok s -> demo_ok (Demo.demo_step s o).
Proof.
  intros (Hlen & Hrec & Hhrv & Hev & Hevok & Hphase).
  destruct o as [| p | e now | d now | day |]; cbn [Demo.demo_step].
  - unfold demo_ok. cbn. repeat split; try assumption; try apply Hhrv.
  - unfold demo_ok, hrv_consistent.
    destruct p; cbn; repeat split; try assumption; intros; try lia;
      try discriminate; try reflexivity.
  - unfold demo_ok.
    destruct e; cbn; repeat split; try assumption; try apply Hhrv; try lia;
      repeat constructor.
  - unfold demo_ok. cbn [Demo.addIntervention Demo.interventionHistory Demo.hrv
                         Demo.activeEvents Demo.phase Demo.currentDay Demo.setDay].
    split; [rewrite length_firstn; lia |].
    split.
    { apply firstn_Forall. constructor; [destruct d; reflexivity | exact Hrec]. }
    repeat split; try assumption; try apply Hhrv.
  - unfold demo_ok. cbn. repeat split; try assumption; try apply Hhrv.
  - unfold demo_ok, hrv_consistent, Demo.resetDemo, Demo.initialState. cbn.
    repeat split; try lia; try constructor; intros; try discriminate; try lia.
Qed.

(** Whatever is done on the demo panel, starting from the initial demo state:
    the intervention history never holds more than five records and each
    record's outcome matches its decision; the simulated baseline stays 50 with
    a percentage that matches current and baseline, and with status critical
    exactly from a 20 percent drop; at most one event is active, it is
    high-risk and lasts one hour; and the phase label is the one that belongs
    to the current day. *)
Theorem demo_state_invariants (ops : list Demo.DemoOp) :
  demo_ok (Demo.demo_run ops Demo.initialState).
Proof.
  unfold Demo.demo_run.
  assert (H0 : demo_ok Demo.initialState).
  { unfold demo_ok, hrv_consistent, Demo.initialState. cbn.
    repeat split; try lia; try constructor; intros; try discriminate; try lia. }
  revert H0. generalize Demo.initialState.
  induction ops as [| o ops IH]; intros s Hs; cbn [fold_left].
  - exact Hs.
  - apply IH. apply demo_step_ok. exact Hs.
Qed.

(** The three simulators act on separate parts of the demo state: setting the
    HRV, the calendar event and the day gives the same state in any order. *)
Theorem simulators_commute (p : Demo.HrvPreset) (e : Demo.EventPreset)
    (now day : Z) (s : Demo.DemoState) :
  Demo.setHRV p (Demo.setCalendarEvent e now s) =
    Demo.setCalendarEvent e now (Demo.setHRV p s) /\
  Demo.setHRV p (Demo.setDay day s) = Demo.setDay day (Demo.setHRV p s) /\
  Demo.setCalendarEvent e now (Demo.setDay day s) =
    Demo.setDay day (Demo.setCalendarEvent e now s).
Proof.
  destruct p; repeat split.
Qed.

(** After a simulator button is pressed, the button that the controls
    highlight is that one and no other: the HRV buttons are told apart by the
    recorded percentage, the event buttons by the title of the active event. *)
Theorem simulator_buttons_reflect_state
    (p p' : Demo.HrvPreset) (e e' : Demo.EventPreset) (now : Z)
    (s : Demo.DemoState) :
  (Demo.hrvButtonActive p' (Demo.setHRV p s) = true <-> p' = p) /\
  (Demo.eventButtonActive e' (Demo.setCalendarEvent e now s) = true <-> e' = e).
Proof.
  split.
  - destruct p, p'; cbn; split; intros H; congruence.
  - destruct e, e'; vm_compute; split; intros H; congruence.
Qed.

(** Which days count as intervention days is the same everywhere: in the
    demo's phase label, in the client's phase, on the timeline of the controls
    and in the guard of the auto-trigger, it is days 3 to 5.  The paths differ
    on day 6, and on any day beyond 7: the demo labels it Observation (its
    Reflection label is for day 7 alone), while the client reports the
    reflection phase and the timeline colours it as reflection. *)
Theorem day_classification (day : Z) (s : Demo.DemoState) :
  (Demo.phase (Demo.setDay day s) = "Intervention Logic"%string <-> 3 <= day <= 5) /\
  (phaseOfDay day = "INTERVENTION_LOGIC"%string <-> 3 <= day <= 5) /\
  (Demo.timelineClass day = "phase-intervention"%string <-> 3 <= day <= 5) /\
  (Demo.phase (Demo.setDay day s) = "Reflection"%string <-> day = 7) /\
  (Demo.phase (Demo.setDay day s) = "Observation"%string <-> day = 6 \/ 7 < day) /\
  (phaseOfDay day = "REFLECTION"%string <-> 6 <= day) /\
  (Demo.timelineClass day = "phase-reflection"%string <-> 6 <= day).
Proof.
  unfold Demo.setDay, Demo.timelineClass, phaseOfDay. cbn [Demo.phase].
  destruct (Z.leb_spec day 2); [| destruct (Z.leb_spec day 5);
    [| destruct (Z.eqb_spec day 7)]];
    repeat split; intros; try discriminate; try lia; try reflexivity.
Qed.

(** Demo mode decides which trigger is live.  The production poll and the
    demo auto-trigger are never both enabled; toggling twice gives the state
    back and the toast names the mode being entered; and the Reset Demo button
    ([setDay(1)] followed by [resetDemo()]) returns the initial state, in which
    demo mode is off, so that afterwards the auto-trigger cannot fire. *)
Theorem demo_mode_switching (s : Demo.DemoState) (a : App.AppState)
    (scr : Demo.ScreenState) :
  (Demo.autoTrigger s scr = true -> App.monitoring a s = false) /\
  Demo.toggleDemoMode (Demo.toggleDemoMode s) = s /\
  (Demo.toastMessage s = "Switched to Demo Mode"%string <->
   Demo.isDemoMode (Demo.toggleDemoMode s) = true) /\
  Demo.demo_run [Demo.DSetDay 1; Demo.DResetDemo] s = Demo.initialState /\
  Demo.autoTrigger (Demo.demo_run [Demo.DSetDay 1; Demo.DResetDemo] s) scr = false.
Proof.
  split; [| split; [| split; [| split]]].
  - intros H. apply autoTrigger_iff in H. destruct H as (Hd & _).
    unfold App.monitoring. rewrite Hd.
    rewrite orb_true_r. reflexivity.
  - destruct s as [m d ph h ev hist]. unfold Demo.toggleDemoMode. cbn.
    rewrite negb_involutive. reflexivity.
  - unfold Demo.toastMessage, Demo.toggleDemoMode. cbn.
    destruct (Demo.isDemoMode s); cbn; split; intros H; congruence.
  - reflexivity.
  - reflexivity.
Qed.

Lemma demo_mode_switching_witness :
  let s := Demo.setHRV Demo.PresetPanic
             (Demo.setCalendarEvent Demo.EvBoard 0
                (Demo.setDay 4 (Demo.toggleDemoMode Demo.initialState))) in
  let a := App.mkApp Demo.void (Some "u1"%string) 4 "Intervention Logic" in
  Demo.autoTrigger s Demo.void = true /\ App.monitoring a s = false.
Proof.
  intros s a. split; [reflexivity |].
  exact (proj1 (@demo_mode_switching s a Demo.void) eq_refl).
Defined.

(** The energy ring ([handleMindfulIntervention]) sets up everything the
    demo trigger looks at: a 30 percent drop (ratio 0.7), the board meeting as
    the one active high-risk event, and an intervention day (the current day
    if it is one already, day 3 otherwise); it then shows the brake screen,
    in demo mode or not. *)
Theorem handleMindfulIntervention_arms_trigger
    (demoState : Demo.DemoState) (now : Z) (a : App.AppState) :
  let d := fst (App.handleMindfulIntervention demoState now) in
  let update := snd (App.handleMindfulIntervention demoState now) in
  Demo.change (Demo.hrv d) = -30 /\
  Demo.dropRatio_le_0_8 (Demo.hrv d) /\
  Demo.activeEvents d =
    [Demo.mkEvent "1" "Board Meeting" now (now + 60 * 60 * 1000) Demo.high] /\
  3 <= Demo.currentDay d <= 5 /\
  (3 <= Demo.currentDay demoState <= 5 ->
   Demo.currentDay d = Demo.currentDay demoState) /\
  (~ 3 <= Demo.currentDay demoState <= 5 ->
   Demo.currentDay d = 3 /\ Demo.phase d = "Intervention Logic"%string) /\
  Demo.autoTrigger d Demo.void = Demo.isDemoMode demoState /\
  App.screen (update a) = Demo.brake.
Proof.
  intros d update. subst d update. unfold App.handleMindfulIntervention.
  cbv zeta. cbn [fst snd].
  destruct (Z.ltb_spec (Demo.currentDay demoState) 3) as [Hlo | Hlo];
    [| destruct (Z.ltb_spec 5 (Demo.currentDay demoState)) as [Hhi | Hhi]];
    cbn [orb].
  - repeat split; try reflexivity; try lia; try (cbn; lia).
    + unfold Demo.dropRatio_le_0_8. cbn. unfold Qle. cbn. lia.
    + cbn. unfold Demo.autoTrigger. cbn. destruct (Demo.isDemoMode demoState); reflexivity.
  - repeat split; try reflexivity; try lia; try (cbn; lia).
    + unfold Demo.dropRatio_le_0_8. cbn. unfold Qle. cbn. lia.
    + cbn. unfold Demo.autoTrigger. cbn. destruct (Demo.isDemoMode demoState); reflexivity.
  - repeat split; try reflexivity; try lia; try (cbn; lia).
    + unfold Demo.dropRatio_le_0_8. cbn. unfold Qle. cbn. lia.
    + unfold Demo.autoTrigger. cbn.
      destruct (Z.leb_spec 3 (Demo.currentDay demoState)); [| lia].
      destruct (Z.leb_spec (Demo.currentDay demoState) 5); [| lia].
      destruct (Demo.isDemoMode demoState); reflexivity.
Qed.

(** ** The App's polls and handlers *)

Lemma getState_run (w : World) :
  runState getState w =
  (StateResponse.mk
     (or_unknown (userId (this w)))
     (StateBody.mk
        (or_unknown (userId (this w)))
        (dayOfCycle (cycleStart w) (nth_reading w 0))
        (cycleStart w)
        (coolingPeriodActive (this w))
        false (Some 60%Q) (Some 5%Q)
        (phaseOfDay (dayOfCycle (cycleStart w) (nth_reading w 1))))
     (nth_reading w 2),
   mkWorld (clock w) (3 + clock_reads w) (random w) (random_draws w)
           (localStorage w) (this w)).
Proof. reflexivity. Qed.

Lemma checkState_run (appState : App.AppState) (w : World) (prev : App.AppState) :
  let w1 := execJS getState w in
  evalJS (App.checkState appState) w prev =
  App.mkApp
    (if StateCheckResponse.should_display (evalJS checkBrakeScreen w1)
        && Demo.is_void (App.screen appState)
     then Demo.brake else App.screen prev)
    (App.userId prev)
    (dayOfCycle (cycleStart w) (nth_reading w 0))
    (phaseOfDay (dayOfCycle (cycleStart w) (nth_reading w 1))) /\
  localStorage (execJS (App.checkState appState) w) = localStorage w.
Proof.
  cbv zeta. unfold App.checkState, evalJS, execJS. cbn.
  destruct (String.eqb _ "INTERVENTION_LOGIC"); cbn;
    [destruct (Qltb _ double_0_3); cbn |];
    destruct (Demo.is_void (App.screen appState)); cbn; split; reflexivity.
Qed.

(** One production poll.  It refreshes day and phase from the client; it can
    change the screen only from the void to the brake screen, and only when
    the client is on an intervention day; a brake, reflection or onboarding
    screen is never replaced; and the poll writes nothing to storage. *)
Theorem checkState_poll (appState prev : App.AppState) (w : World) :
  let next := evalJS (App.checkState appState) w prev in
  App.currentDay next = dayOfCycle (cycleStart w) (nth_reading w 0) /\
  App.userId next = App.userId prev /\
  (App.screen next = App.screen prev \/ App.screen next = Demo.brake) /\
  (App.screen appState <> Demo.void -> App.screen next = App.screen prev) /\
  (~ 3 <= phaseDay (execJS getState w) <= 5 -> App.screen next = App.screen prev) /\
  localStorage (execJS (App.checkState appState) w) = localStorage w.
Proof.
  intros next. subst next.
  destruct (checkState_run appState w prev) as [Hrun Hls]. cbv zeta in Hrun.
  rewrite Hrun. cbn [App.currentDay App.userId App.screen].
  repeat split; trivial.
  - destruct (_ && _); [right | left]; reflexivity.
  - intros Hscr.
    assert (Hv : Demo.is_void (App.screen appState) = false)
      by (destruct (App.screen appState); try reflexivity; congruence).
    rewrite Hv, andb_false_r. reflexivity.
  - intros Hday. rewrite checkBrakeScreen_should_display.
    rewrite (phaseOfDay_not_intervention Hday). reflexivity.
Qed.

Lemma hours_minutes_window (x : Z) :
  ((x / 3600000) mod 24 = 9 /\ (x / 60000) mod 60 < 5) <->
  9 * 3600000 <= x mod 86400000 < 9 * 3600000 + 5 * 60000.
Proof.
  pose proof (Z.div_mod x 86400000 ltac:(lia)) as Hx.
  pose proof (Z.mod_pos_bound x 86400000 ltac:(lia)) as Hr.
  set (q := x / 86400000) in *. set (r := x mod 86400000) in *.
  assert (Hh : (x / 3600000) mod 24 = r / 3600000).
  { replace x with (r + (q * 24) * 3600000) by lia.
    rewrite Z.div_add by lia. rewrite Z.add_mod by lia.
    rewrite Z.mod_mul by lia. rewrite Z.add_0_r, Z.mod_mod by lia.
    apply Z.mod_small. split; [apply Z.div_pos; lia |].
    apply Z.div_lt_upper_bound; lia. }
  assert (Hm : (x / 60000) mod 60 = (r / 60000) mod 60).
  { replace x with (r + (q * 24 * 60) * 60000) by lia.
    rewrite Z.div_add by lia.
    replace (q * 24 * 60) with ((q * 24) * 60) by lia.
    rewrite Z.mod_add by lia. reflexivity. }
  rewrite Hh, Hm.
  pose proof (Z.div_mod r 3600000 ltac:(lia)) as H1.
  pose proof (Z.mod_pos_bound r 3600000 ltac:(lia)) as H2.
  pose proof (Z.div_mod r 60000 ltac:(lia)) as H3.
  pose proof (Z.mod_pos_bound r 60000 ltac:(lia)) as H4.
  pose proof (Z.div_mod (r / 60000) 60 ltac:(lia)) as H5.
  pose proof (Z.mod_pos_bound (r / 60000) 60 ltac:(lia)) as H6.
  set (h := r / 3600000) in *. set (hr := r mod 3600000) in *.
  set (m := r / 60000) in *. set (mr := r mod 60000) in *.
  set (mq := m / 60) in *. set (mm := m mod 60) in *.
  split; intros H; lia.
Qed.

Lemma checkReflection_run (tz : Z -> Z) (w : World) :
  evalJS (App.checkReflection tz) w =
  if dayOfCycle (cycleStart w) (nth_reading w 0) =? 7
  then if (App.getHours tz (nth_reading w 3) =? 9) &&
          (App.getMinutes tz (nth_reading w 3) <? 5)
       then App.setScreen Demo.reflection
       else fun prev => prev
  else fun prev => prev.
Proof.
  unfold App.checkReflection, evalJS, cycleStart, nth_reading. cbn.
  destruct (_ =? 7); cbn; [destruct (_ && _) |]; reflexivity.
Qed.

(** One reflection poll.  It switches to the reflection screen exactly when
    the client reports day 7 and the local time of day is at least 09:00:00
    and before 09:05:00; it then replaces whatever screen is showing, the
    brake screen included.  In every other case it changes nothing. *)
Theorem checkReflection_window (tz : Z -> Z) (w : World) :
  let update := evalJS (App.checkReflection tz) w in
  let day := dayOfCycle (cycleStart w) (nth_reading w 0) in
  let now := nth_reading w 3 in
  (day = 7 /\ in_reflection_window tz now /\
   forall prev, update prev = App.setScreen Demo.reflection prev) \/
  (~ (day = 7 /\ in_reflection_window tz now) /\
   forall prev, update prev = prev).
Proof.
  cbv zeta. rewrite checkReflection_run.
  unfold in_reflection_window, local_time_of_day, App.getHours, App.getMinutes.
  rewrite MS_PER_DAY_value.
  pose proof (hours_minutes_window (nth_reading w 3 + tz (nth_reading w 3))) as Hw.
  destruct (Z.eqb_spec (dayOfCycle (cycleStart w) (nth_reading w 0)) 7) as [E7 | N7].
  - destruct (Z.eqb_spec
                (((nth_reading w 3 + tz (nth_reading w 3)) / 3600000) mod 24) 9)
      as [E9 | N9]; cbn [andb].
    + destruct (Z.ltb_spec
                  (((nth_reading w 3 + tz (nth_reading w 3)) / 60000) mod 60) 5)
        as [L5 | G5].
      * left. split; [exact E7 |]. split; [apply Hw; split; assumption |].
        reflexivity.
      * right. split; [| reflexivity].
        intros (_ & Hwin). apply Hw in Hwin. lia.
    + right. split; [| reflexivity].
      intros (_ & Hwin). apply Hw in Hwin. lia.
  - right. split; [| reflexivity]. intros (E & _). contradiction.
Qed.

Example checkReflection_at_nine :
  let tz := fun _ : Z => 3600000 in
  let w := new_client (steady (6 * MS_PER_DAY + 8 * 3600000 + 2 * 60000))
                      (draws [] 0%Q) (storage_started_at 0) in
  App.screen (evalJS (App.checkReflection tz) w
                (App.mkApp Demo.brake (Some "u1"%string) 7 "REFLECTION"))
  = Demo.reflection.
Proof. reflexivity. Qed.

Lemma brakeRecheck_inert (appState : App.AppState) (w : World) (prev : App.AppState) :
  App.screen appState <> Demo.void ->
  evalJS (App.brakeRecheck appState) w prev = prev.
Proof.
  intros Hscr.
  assert (Hv : Demo.is_void (App.screen appState) = false)
    by (destruct (App.screen appState); try reflexivity; congruence).
  unfold App.brakeRecheck, evalJS. cbn. rewrite Hv.
  destruct (String.eqb _ "INTERVENTION_LOGIC"); cbn;
    [destruct (Qltb _ double_0_3); cbn |]; reflexivity.
Qed.

(** The decision handler that the brake screen is given.  It always returns
    to the void; in demo mode it adds the decision to the intervention
    history; for Proceed it arms no timer and for Delay one of 20 minutes.
    The timer's callback was created while the brake screen was showing and
    tests that render's screen for being the void, so whatever the check
    returns after the 20 minutes, the callback leaves the screen as it is. *)
Theorem brake_screen_decision_handler
    (appState : App.AppState) (demoState : Demo.DemoState)
    (onDecision : DecisionType -> Z ->
       Demo.DemoState * (App.AppState -> App.AppState) *
       option (Z * JS (App.AppState -> App.AppState)))
    (Hrender : App.renderScreen appState demoState = App.BrakeScreen onDecision) :
  (forall d now a, App.screen (snd (fst (onDecision d now)) a) = Demo.void) /\
  (forall d now,
     fst (fst (onDecision d now)) =
       if Demo.isDemoMode demoState
       then Demo.addIntervention d now demoState
       else demoState) /\
  (forall now, snd (onDecision Proceed now) = None) /\
  (forall now, exists callback,
     snd (onDecision Delay now) = Some (20 * 60 * 1000, callback) /\
     forall w prev, evalJS callback w prev = prev).
Proof.
  unfold App.renderScreen in Hrender.
  destruct (App.screen appState) eqn:Hscr; try discriminate.
  injection Hrender as <-.
  repeat split.
  intros now. exists (App.brakeRecheck appState). split; [reflexivity |].
  intros w prev. apply brakeRecheck_inert. rewrite Hscr. discriminate.
Qed.

Lemma brake_screen_decision_handler_witness :
  let appState := App.mkApp Demo.brake (Some "u1"%string) 4 "INTERVENTION_LOGIC" in
  let demoState := Demo.initialState in
  App.renderScreen appState demoState =
    App.BrakeScreen (App.handleBrakeDecision appState demoState) /\
  snd (App.handleBrakeDecision appState demoState Proceed 0) = None.
Proof.
  intros appState demoState. split; [reflexivity |].
  exact (proj1 (proj2 (proj2
           (@brake_screen_decision_handler appState demoState
              (App.handleBrakeDecision appState demoState) eq_refl))) 0).
Defined.

Lemma setUserId_run (w : World) (uid : string) :
  runState (setUserId uid) w =
  (tt,
   mkWorld (clock w) (2 + clock_reads w) (random w) (random_draws w)
     (set_cycle_start (nth_reading w 0) (set_user_id uid (localStorage w)))
     (with_cycleStartDate (nth_reading w 1) (with_userId (Some uid) (this w)))).
Proof. reflexivity. Qed.

Lemma initApp_v01_run (w : World) :
  runState App.initApp_v01 w =
  match omtobe_user_id (localStorage w) with
  | Some s =>
      if truthy s
      then (fun prev => App.mkApp Demo.void (Some s) (App.currentDay prev) (App.phase prev),
            execJS (setUserId s) w)
      else (App.setScreen Demo.onboarding, w)
  | None => (App.setScreen Demo.onboarding, w)
  end.
Proof.
  unfold App.initApp_v01, execJS. cbn.
  destruct w as [clk n rnd m ls c]. cbn.
  destruct (omtobe_user_id ls) as [s |]; [destruct (truthy s) |]; reflexivity.
Qed.

(** Start-up of the two App versions.  The v0.1 App hands a stored user to the
    client with [setUserId], which starts a new cycle: whatever cycle start
    was stored, it is overwritten with the time of the page load, so no check
    displays for the next two days.  Without a stored user it shows
    onboarding and changes nothing.  The v0.2 App never touches the client or
    the storage at start-up and goes to the void as the stored user or as
    [guest_user]. *)
Theorem initApp_and_the_cycle (w : World) (stored : string) (prev : App.AppState)
    (Hstored : omtobe_user_id (localStorage w) = Some stored)
    (Htruthy : truthy stored = true) :
  let w1 := execJS App.initApp_v01 w in
  let a1 := evalJS App.initApp_v01 w prev in
  let w2 := execJS App.initApp w in
  let a2 := evalJS App.initApp w prev in
  (cycleStart w1 = nth_reading w 1 /\
   omtobe_cycle_start (localStorage w1) = Some (nth_reading w 0) /\
   App.screen a1 = Demo.void /\ App.userId a1 = Some stored /\
   (nth_reading w1 1 < cycleStart w1 + 2 * MS_PER_DAY ->
    StateCheckResponse.should_display (evalJS checkBrakeScreen w1) = false)) /\
  (w2 = w /\ App.screen a2 = Demo.void /\ App.userId a2 = Some stored).
Proof.
  cbv zeta.
  assert (Hrun : runState App.initApp_v01 w =
                 (fun prev => App.mkApp Demo.void (Some stored)
                                (App.currentDay prev) (App.phase prev),
                  execJS (setUserId stored) w))
    by (rewrite initApp_v01_run, Hstored, Htruthy; reflexivity).
  assert (Hw1 : execJS App.initApp_v01 w = execJS (setUserId stored) w)
    by (unfold execJS at 1; rewrite Hrun; reflexivity).
  assert (Ha1 : evalJS App.initApp_v01 w prev =
                App.mkApp Demo.void (Some stored)
                  (App.currentDay prev) (App.phase prev))
    by (unfold evalJS; rewrite Hrun; reflexivity).
  rewrite Hw1, Ha1.
  split.
  - unfold execJS. rewrite setUserId_run. cbn [snd].
    repeat split. apply silent_first_two_days.
  - unfold App.initApp, evalJS, execJS. cbn. rewrite Hstored. cbn.
    rewrite Htruthy. destruct w; repeat split.
Qed.

Lemma initApp_and_the_cycle_witness :
  let w := day4_world (draws [] 0%Q) in
  let w1 := execJS App.initApp_v01 w in
  omtobe_user_id (localStorage w) = Some "u1"%string /\
  truthy "u1" = true /\
  evalJS getCurrentDay w = 4 /\
  evalJS getCurrentDay w1 = 1 /\
  StateCheckResponse.should_display (evalJS checkBrakeScreen w) = true /\
  StateCheckResponse.should_display (evalJS checkBrakeScreen w1) = false.
Proof.
  intros w w1.
  split; [reflexivity |]. split; [reflexivity |]. split; [reflexivity |].
  split; [reflexivity |]. split; [reflexivity |].
  exact (proj2 (proj2 (proj2 (proj2 (proj1
           (@initApp_and_the_cycle w "u1" App.initialAppState eq_refl eq_refl)))))
           eq_refl).
Defined.

(** Without a stored user (none, or the empty string) the v0.1 start-up shows
    the onboarding screen and leaves client and storage untouched. *)
Lemma initApp_v01_without_user (w : World) (prev : App.AppState) :
  App.truthy_opt (omtobe_user_id (localStorage w)) = false ->
  execJS App.initApp_v01 w = w /\
  App.screen (evalJS App.initApp_v01 w prev) = Demo.onboarding.
Proof.
  intros H. unfold evalJS, execJS. rewrite initApp_v01_run.
  unfold App.truthy_opt in H.
  destruct (omtobe_user_id (localStorage w)) as [s |]; [rewrite H |];
    split; reflexivity.
Qed.
